(** * mdformat-vscode: the resolve / check / invoke pipeline of [extension.ts]

    A shallow embedding of [src/extension.ts].  The module-level variables
    [mdformatFound] and [pythonPathUsedForLastCheck] and everything the
    extension sends to its collaborators (output channel, notifications,
    child processes) are threaded through a state monad; everything the
    extension reads from its collaborators (configuration, file system,
    the Python extension, the behaviour of child processes) is a field of
    an environment record.

    One request is modelled at a time: the [await] points of the source are
    sequenced in program order and no other request interleaves. *)

From Stdlib Require Import String Ascii List ZArith Bool Lia DecimalString Eqdep_dec.
Import ListNotations.
Local Open Scope list_scope.
Local Open Scope string_scope.

(** ** JavaScript strings

    A string is a sequence of code units; the model keeps the code units
    below 256 (the Latin-1 range). *)

Module JS.

(** The double quote character, U+0022. *)
Definition dq : string := String (ascii_of_nat 34) EmptyString.

(** The line feed character, U+000A. *)
Definition lf : string := String (ascii_of_nat 10) EmptyString.

(** [s] in double quotes, as the template [`"${s}"`] builds it. *)
Definition quoted (s : string) : string := dq ++ s ++ dq.

(** Truthiness of a string: every string but the empty one. *)
Definition truthy (s : string) : bool :=
  match s with
  | EmptyString => false
  | String _ _ => true
  end.

(** Truthiness of [string | undefined] (or [string | null]). *)
Definition truthy_opt (o : option string) : bool :=
  match o with
  | Some s => truthy s
  | None => false
  end.

(** Truthiness of [boolean | undefined]. *)
Definition truthy_bool (o : option bool) : bool :=
  match o with
  | Some b => b
  | None => false
  end.

(** [a || b] on [string | undefined] operands. *)
Definition or_else (a b : option string) : option string :=
  if truthy_opt a then a else b.

(** [a === b] on [string | undefined] operands. *)
Definition strict_eq (a b : option string) : bool :=
  match a, b with
  | Some x, Some y => String.eqb x y
  | None, None => true
  | _, _ => false
  end.

(** White space and line terminators that [trim] strips, in the Latin-1
    range: TAB, LF, VT, FF, CR, SPACE and NBSP. *)
Definition isWhiteSpace (c : ascii) : bool :=
  let n := nat_of_ascii c in
  ((9 <=? n) && (n <=? 13) || (n =? 32) || (n =? 160))%nat.

Fixpoint trimStart (s : string) : string :=
  match s with
  | EmptyString => EmptyString
  | String c r => if isWhiteSpace c then trimStart r else s
  end.

Fixpoint trimEnd (s : string) : string :=
  match s with
  | EmptyString => EmptyString
  | String c r =>
      match trimEnd r with
      | EmptyString => if isWhiteSpace c then EmptyString else String c EmptyString
      | r' => String c r'
      end
  end.

Definition trim (s : string) : string := trimEnd (trimStart s).

(** Lower-casing of one code unit in the Latin-1 range: A-Z, and
    U+00C0-U+00DE but for the multiplication sign U+00D7. *)
Definition lowerChar (c : ascii) : ascii :=
  let n := nat_of_ascii c in
  if ((65 <=? n) && (n <=? 90)
      || (192 <=? n) && (n <=? 222) && negb (n =? 215))%nat
  then ascii_of_nat (n + 32)
  else c.

Fixpoint toLowerCase (s : string) : string :=
  match s with
  | EmptyString => EmptyString
  | String c r => String (lowerChar c) (toLowerCase r)
  end.

(** [s.includes(sub)]. *)
Fixpoint includes (s sub : string) : bool :=
  if String.prefix sub s then true
  else match s with
       | EmptyString => false
       | String _ r => includes r sub
       end.

(** [String(n)] for an integer [n]. *)
Definition ofInt (n : Z) : string := NilZero.string_of_int (Z.to_int n).

(** [`${code}`] for [code : number | null]. *)
Definition ofCode (code : option Z) : string :=
  match code with
  | Some n => ofInt n
  | None => "null"
  end.

End JS.

(** ** Data model *)

(** What the extension emits, in the order it emits it. *)
Inductive Event : Type :=
| ChannelInfo (msg : string)                       (* outputChannel.info *)
| ChannelWarn (msg : string)                       (* outputChannel.warn *)
| ChannelError (msg : string) (args : list string) (* outputChannel.error *)
| ConsoleDebug (msg : string)                      (* console.debug *)
| ShowErrorMessage (msg : string)                  (* vscode.window.showErrorMessage *)
| ShowInformationMessage (msg : string)            (* vscode.window.showInformationMessage *)
| ActivateExtension                                (* pythonExtension.activate() *)
| ExecSync (command : string)                      (* cp.execSync *)
| Exec (command : string)                          (* cp.exec *)
| Spawn (command : string) (args : list string) (shell : bool) (* cp.spawn *)
| StdinWrite (text : string)                       (* proc.stdin.write *)
| StdinEnd.                                        (* proc.stdin.end *)

(** The module-level variables, and the trace of emitted events.
    [None] is [undefined]. *)
Record State : Type := mkState {
  mdformatFound : option bool;
  pythonPathUsedForLastCheck : option string;
  log : list Event
}.

(** A call that either throws (or rejects) or returns. *)
Inductive Thrown (A : Type) : Type :=
| Throws (message : string)
| Returns (a : A).
Arguments Throws {A} message.
Arguments Returns {A} a.

(** The [ms-python.python] extension as [getPythonInterpreter] and
    [activate] observe it. *)
Record PythonExtension : Type := {
  (* [isActive] when the extension object is obtained *)
  isActive : bool;
  (* [await activate()]: rejects, or fulfils and [isActive] then reads
     as the boolean *)
  activateExtension : Thrown bool;
  (* [exports && exports.settings] is truthy *)
  exportsSettings : bool;
  (* [getExecutionDetails(uri)]: throws, or returns details whose
     [execCommand] is the list ([None]: no details or no [execCommand]) *)
  getExecutionDetails : Thrown (option (list string))
}.

(** The arguments of the [cp.exec] callback. *)
Record ExecResult : Type := {
  exec_error : option string;   (* [error.message], [None] for [null] *)
  exec_stdout : string;
  exec_stderr : string
}.

(** [Number.isSafeInteger]: an integer of magnitude at most 2^53 - 1. *)
Definition isSafeInteger (n : Z) : bool := (Z.abs n <=? 9007199254740991)%Z.

(** A JavaScript number, as far as [String] of it goes, which is all the
    extension does with one.  A safe integer is held as the integer:
    [String] prints it in decimal.  Any other number (a fraction, a larger
    magnitude, [NaN], an infinity) is held as the text [String] gives for
    it, such as "88.5" or "1e+21". *)
Inductive JSNumber : Type :=
| SafeInteger (n : Z) (safe : isSafeInteger n = true)
| OtherNumber (text : string).

(** [String(x)] for a number [x]. *)
Definition numberToString (x : JSNumber) : string :=
  match x with
  | SafeInteger n _ => JS.ofInt n
  | OtherNumber text => text
  end.

(** The value of the [wrap] setting: a string or a number. *)
Inductive WrapOption : Type :=
| WrapString (s : string)
| WrapNumber (n : JSNumber).

(** What the child process object emits after [cp.spawn]. *)
Inductive ProcEvent : Type :=
| StdoutData (chunk : string)
| StderrData (chunk : string)
| ProcError (message : string)
(* [cancelRequested] is [token.isCancellationRequested] when the handler runs *)
| ProcClose (code : option Z) (signal : option string) (cancelRequested : bool).

(** Everything the extension reads from its collaborators. *)
Record Env : Type := {
  isWindows : bool;
  (* configuration section "mdformat" *)
  config_pythonPath : option string;
  config_wrap : WrapOption;             (* [get("wrap", "keep")] *)
  config_endOfLine : string;            (* [get("endOfLine")!] *)
  config_noValidate : option bool;
  config_args : list string;            (* [get("args", [])] *)
  (* [fs.accessSync(p, F_OK)] returns rather than throws *)
  accessSync : string -> bool;
  (* [vscode.extensions.getExtension("ms-python.python")] *)
  pythonExtension : option PythonExtension;
  (* [cp.execSync(command)]: standard output, [None] when it throws *)
  execSync : string -> option string;
  (* [cp.exec(command, callback)] *)
  exec : string -> ExecResult;
  (* [document.getText()] *)
  documentText : string;
  (* the events of the process spawned with a command, its arguments and
     the text written to its standard input *)
  spawn : string -> list string -> string -> list ProcEvent
}.

(** A full-range replacement: positions are kept as offsets in the document. *)
Record TextEdit : Type := {
  rangeStart : nat;
  rangeEnd : nat;
  newText : string
}.

(** The value a promise is rejected with: an [Error] object or a string. *)
Inductive Rejection : Type :=
| RejectError (message : string)
| RejectString (s : string).

Inductive Promise : Type :=
| Pending
| Resolved (edits : list TextEdit)
| Rejected (reason : Rejection).

(** ** The state monad *)

Definition M (A : Type) : Type := State -> A * State.

Definition ret {A : Type} (a : A) : M A := fun st => (a, st).

Definition bind {A B : Type} (m : M A) (k : A -> M B) : M B :=
  fun st => let (a, st') := m st in k a st'.

Notation "x <- m ;; k" := (bind m (fun x => k))
  (at level 61, m at next level, right associativity).
Notation "m ;; k" := (bind m (fun _ => k))
  (at level 61, right associativity).

Definition get : M State := fun st => (st, st).

Definition emit (e : Event) : M unit :=
  fun st => (tt, mkState (mdformatFound st) (pythonPathUsedForLastCheck st) (log st ++ [e])).

Definition set_mdformatFound (v : option bool) : M unit :=
  fun st => (tt, mkState v (pythonPathUsedForLastCheck st) (log st)).

Definition set_pythonPathUsedForLastCheck (v : option string) : M unit :=
  fun st => (tt, mkState (mdformatFound st) v (log st)).

(** ** getPythonInterpreter (lines 21-122) *)

Import JS.

(** Step 1 (lines 27-44): the configured path; [None] falls through. *)
Definition fromUserSetting (env : Env) : M (option string) :=
  match config_pythonPath env with
  | Some userPythonPath =>
      if truthy userPythonPath
         && negb (String.eqb (trim userPythonPath) EmptyString)
         && negb (String.eqb userPythonPath "null")
      then
        emit (ChannelInfo ("Using Python interpreter from " ++ quoted "mdformat.pythonPath"
                           ++ ": " ++ userPythonPath)) ;;
        if accessSync env userPythonPath
        then ret (Some userPythonPath)
        else
          emit (ChannelError ("Provided pythonPath " ++ userPythonPath
                              ++ " is not a valid file. Trying to find another interpreter.") []) ;;
          ret None
      else ret None
  | None => ret None
  end.

Definition extensionErrorMessage : string :=
  "Error while trying to get interpreter from ms-python.python extension:".

(** Lines 56-81, once the extension is known to be active or not. *)
Definition queryExtension (ext : PythonExtension) (active : bool) : M (option string) :=
  if active && exportsSettings ext
  then
    match getExecutionDetails ext with
    | Throws err => emit (ChannelError extensionErrorMessage [err]) ;; ret None
    | Returns (Some (interpreterFromExtension :: _)) =>
        emit (ChannelInfo ("Using Python interpreter from ms-python.python extension: "
                           ++ interpreterFromExtension)) ;;
        ret (Some interpreterFromExtension)
    | Returns _ =>
        emit (ChannelInfo "ms-python.python extension is active, but no interpreter selected or found through it.") ;;
        ret None
    end
  else
    emit (ChannelInfo "ms-python.python extension present but not fully active or exports not available when queried for path.") ;;
    ret None.

(** Step 2 (lines 46-93): the Python extension; [None] falls through. *)
Definition fromPythonExtension (env : Env) : M (option string) :=
  match pythonExtension env with
  | Some ext =>
      if isActive ext
      then queryExtension ext true
      else
        emit (ChannelInfo "Attempting to activate ms-python.python extension for interpreter path...") ;;
        emit ActivateExtension ;;
        match activateExtension ext with
        | Throws err => emit (ChannelError extensionErrorMessage [err]) ;; ret None
        | Returns active => queryExtension ext active
        end
  | None =>
      emit (ChannelInfo "ms-python.python extension not installed. Skipping its interpreter discovery.") ;;
      ret None
  end.

(** Lines 97-99. *)
Definition commonPythons (env : Env) : list string :=
  if isWindows env
  then ["python.exe"; "python3.exe"; "py.exe"]
  else ["python3"; "python"].

(** The command line of the probe, line 103. *)
Definition versionCommand (pyCmd : string) : string := quoted pyCmd ++ " --version".

(** The loop of lines 101-116. *)
Fixpoint probe (env : Env) (cmds : list string) : M (option string) :=
  match cmds with
  | [] => ret None
  | pyCmd :: rest =>
      emit (ExecSync (versionCommand pyCmd)) ;;
      match execSync env (versionCommand pyCmd) with
      | Some commandOutput =>
          if includes (toLowerCase commandOutput) "python"
          then
            emit (ChannelInfo ("Found global Python: " ++ pyCmd)) ;;
            ret (Some pyCmd)
          else probe env rest
      | None =>
          emit (ConsoleDebug ("Command '" ++ pyCmd ++ " --version' failed, trying next global Python.")) ;;
          probe env rest
      end
  end.

(** Step 3 (lines 95-121). *)
Definition fromPath (env : Env) : M (option string) :=
  emit (ChannelInfo "Trying to find a global Python interpreter in PATH...") ;;
  r <- probe env (commonPythons env) ;;
  match r with
  | Some pyCmd => ret (Some pyCmd)
  | None =>
      emit (ChannelWarn "No suitable Python interpreter found through settings, Python extension, or system PATH.") ;;
      ret None
  end.

(** Steps 2 and 3, what runs when step 1 does not return. *)
Definition afterUserSetting (env : Env) : M (option string) :=
  r <- fromPythonExtension env ;;
  match r with
  | Some p => ret (Some p)
  | None => fromPath env
  end.

Definition getPythonInterpreter (env : Env) : M (option string) :=
  r <- fromUserSetting env ;;
  match r with
  | Some p => ret (Some p)
  | None => afterUserSetting env
  end.

(** ** checkMdformatAvailability (lines 131-169) *)

(** The command line of the availability check, line 149. *)
Definition checkCommand (interpreterPath : string) : string :=
  quoted interpreterPath ++ " -m mdformat --version".

Definition checkMdformatAvailability (env : Env) (pythonToCheck : option string) : M bool :=
  interpreterPath <-
    (if truthy_opt pythonToCheck then ret pythonToCheck else getPythonInterpreter env) ;;
  match interpreterPath with
  | Some (String c r as interpreterPath) =>
      emit (ChannelInfo ("Checking for mdformat using Python: " ++ interpreterPath)) ;;
      emit (Exec (checkCommand interpreterPath)) ;;
      let res := exec env (checkCommand interpreterPath) in
      set_pythonPathUsedForLastCheck (Some interpreterPath) ;;
      match exec_error res with
      | Some message =>
          emit (ChannelError ("mdformat check failed for " ++ interpreterPath ++ ":") [message]) ;;
          (if truthy (exec_stderr res)
           then emit (ChannelError "mdformat stderr:" [trim (exec_stderr res)])
           else ret tt) ;;
          set_mdformatFound (Some false) ;;
          ret false
      | None =>
          emit (ChannelInfo ("mdformat found with " ++ interpreterPath ++ ". Version: "
                             ++ trim (exec_stdout res))) ;;
          set_mdformatFound (Some true) ;;
          ret true
      end
  | _ =>
      emit (ChannelWarn "No Python interpreter path provided or found for mdformat check.") ;;
      set_mdformatFound (Some false) ;;
      set_pythonPathUsedForLastCheck None ;;
      ret false
  end.

(** ** showMdformatNotAvailableError (lines 175-184) *)

Definition showMdformatNotAvailableError (attemptedPythonPath : option string) : M unit :=
  let interpreterMsg :=
    match attemptedPythonPath with
    | Some (String c r as p) => "the Python interpreter ('" ++ p ++ "')"
    | _ => "your Python environment (no interpreter was selected/found, or the path was invalid)"
    end in
  emit (ShowErrorMessage
          ("mdformat was not found using " ++ interpreterMsg ++ ". "
           ++ "Make sure you have selected the right Python interpreter (or set "
           ++ quoted "mdformat.pythonPath"
           ++ ") and have mdformat installed in that environment (e.g., 'pip install mdformat').")).

(** ** activate: the interpreter-change listeners (lines 193-222) *)

(** The listener registered when the Python extension is already active. *)
Definition onDidChangeExecutionDetails_active : M unit :=
  emit (ChannelInfo "Python execution details changed. mdformat availability will be re-evaluated on next format attempt.") ;;
  set_mdformatFound None.

(** The listener registered once [activate()] has fulfilled. *)
Definition onDidChangeExecutionDetails_activated : M unit :=
  emit (ChannelInfo "Python execution details changed (after activation). mdformat availability will be re-evaluated on next format attempt.") ;;
  set_mdformatFound None.

(** The listener [activate] registers, if any.  The source reads
    [exports.settings] without a test and throws when it is missing,
    registering nothing; the model answers with the listener there too, so
    that it answers with a listener wherever the source registers one. *)
Definition registeredListener (env : Env) : option (M unit) :=
  match pythonExtension env with
  | Some ext =>
      if isActive ext
      then Some onDidChangeExecutionDetails_active
      else match activateExtension ext with
           | Returns _ => Some onDidChangeExecutionDetails_activated
           | Throws _ => None
           end
  | None => None
  end.

(** ** provideDocumentFormattingEdits (lines 227-390) *)

(** Lines 253-256. *)
Definition needsCheck (st : State) (currentInterpreterForFormatting : string) : bool :=
  match mdformatFound st with None => true | Some _ => false end
  || negb (strict_eq (pythonPathUsedForLastCheck st) (Some currentInterpreterForFormatting))
  || match mdformatFound st with Some false => true | _ => false end.

(** Lines 253-266: the check, run when [needsCheck] says so. *)
Definition recheckIfNeeded (env : Env) (currentInterpreterForFormatting : string) : M unit :=
  st <- get ;;
  if needsCheck st currentInterpreterForFormatting
  then
    emit (ChannelInfo ("Formatting: Re-evaluating mdformat availability for interpreter: "
                       ++ currentInterpreterForFormatting)) ;;
    checkMdformatAvailability env (Some currentInterpreterForFormatting) ;;
    ret tt
  else ret tt.

(** [wrap !== "keep"], [typeof wrap === "number"] and [String(wrap)]. *)
Definition wrapDiffersFrom (wrap : WrapOption) (s : string) : bool :=
  match wrap with
  | WrapString w => negb (String.eqb w s)
  | WrapNumber _ => true
  end.

Definition wrapIsNumber (wrap : WrapOption) : bool :=
  match wrap with
  | WrapString _ => false
  | WrapNumber _ => true
  end.

Definition wrapToString (wrap : WrapOption) : string :=
  match wrap with
  | WrapString w => w
  | WrapNumber n => numberToString n
  end.

(** Lines 283-306: the arguments of the formatting run. *)
Definition buildArgs (env : Env) : list string :=
  let args := ["-m"; "mdformat"] in
  let wrap := config_wrap env in
  let args :=
    if wrapDiffersFrom wrap "keep" || wrapIsNumber wrap
    then (args ++ ["--wrap"; wrapToString wrap])%list
    else args in
  let args := (args ++ ["--end-of-line"; config_endOfLine env])%list in
  let args :=
    if truthy_bool (config_noValidate env)
    then (args ++ ["--no-validate"])%list
    else args in
  let args := (args ++ config_args env)%list in
  (args ++ ["-"])%list.

(** The closure variables of the promise executor (lines 318-389). *)
Record Invocation : Type := mkInvocation {
  stdout : string;
  stderr : string;
  promise : Promise
}.

(** [resolve] and [reject]: only the first call settles the promise. *)
Definition settle (inv : Invocation) (p : Promise) : Invocation :=
  match promise inv with
  | Pending => mkInvocation (stdout inv) (stderr inv) p
  | _ => inv
  end.

(** The "error" handler, lines 333-341. *)
Definition onError (pythonExecutableForMdformat : string) (message : string)
    (inv : Invocation) : M Invocation :=
  emit (ChannelError "Failed to start mdformat process:" [message]) ;;
  emit (ShowErrorMessage ("mdformat failed to start: " ++ message ++ ". Is "
                          ++ quoted pythonExecutableForMdformat ++ " a valid Python path?")) ;;
  set_mdformatFound (Some false) ;;
  set_pythonPathUsedForLastCheck (Some pythonExecutableForMdformat) ;;
  ret (settle inv (Rejected (RejectError message))).

(** [vscode.TextEdit.replace(fullRange, stdout)], lines 376-381. *)
Definition replaceFullRange (originalText stdout : string) : TextEdit :=
  {| rangeStart := 0; rangeEnd := String.length originalText; newText := stdout |}.

(** The "close" handler, lines 343-385. *)
Definition onClose (originalText : string) (code : option Z) (signal : option string)
    (isCancellationRequested : bool) (inv : Invocation) : M Invocation :=
  if isCancellationRequested
  then
    emit (ChannelInfo "Formatting cancelled by user.") ;;
    ret (settle inv (Rejected (RejectString "Cancelled")))
  else
    match signal with
    | Some (String _ _ as signal) =>
        emit (ChannelError ("mdformat process terminated by signal: " ++ signal) []) ;;
        emit (ShowErrorMessage ("mdformat process terminated unexpectedly (signal: "
                                ++ signal ++ ").")) ;;
        ret (settle inv (Rejected (RejectString ("Terminated by signal " ++ signal))))
    | _ =>
        match code with
        | Some 0%Z =>
            if (0 <? String.length (stdout inv))%nat
               && negb (String.eqb (stdout inv) originalText)
            then
              emit (ChannelInfo "Formatted successfully.") ;;
              ret (settle inv (Resolved [replaceFullRange originalText (stdout inv)]))
            else ret (settle inv (Resolved []))
        | _ =>
            emit (ChannelError ("mdformat process exited with code " ++ ofCode code ++ ".") []) ;;
            emit (ChannelError "mdformat stderr:" [trim (stderr inv)]) ;;
            let detailedError := trim (stderr inv) in
            let detailedError :=
              if truthy detailedError then detailedError
              else "mdformat exited with code " ++ ofCode code ++ ". Check "
                   ++ quoted "Output > mdformat" ++ " for details." in
            emit (ShowErrorMessage ("mdformat formatting failed: " ++ detailedError)) ;;
            ret (settle inv
                   (Rejected (RejectString
                      (if truthy (stderr inv) then stderr inv
                       else "mdformat exited with code " ++ ofCode code))))
        end
    end.

(** One event of the child process, dispatched to its handler
    (lines 326-385). *)
Definition handle (pythonExecutableForMdformat originalText : string)
    (ev : ProcEvent) (inv : Invocation) : M Invocation :=
  match ev with
  | StdoutData data => ret (mkInvocation (stdout inv ++ data) (stderr inv) (promise inv))
  | StderrData data => ret (mkInvocation (stdout inv) (stderr inv ++ data) (promise inv))
  | ProcError message => onError pythonExecutableForMdformat message inv
  | ProcClose code signal cancelRequested =>
      onClose originalText code signal cancelRequested inv
  end.

Fixpoint deliver (pythonExecutableForMdformat originalText : string)
    (evs : list ProcEvent) (inv : Invocation) : M Invocation :=
  match evs with
  | [] => ret inv
  | ev :: rest =>
      inv' <- handle pythonExecutableForMdformat originalText ev inv ;;
      deliver pythonExecutableForMdformat originalText rest inv'
  end.

(** Lines 319-321. *)
Definition spawnCommand (env : Env) (pythonExecutableForMdformat : string) : string :=
  if isWindows env
  then "cmd /c chcp 65001>nul &&" ++ pythonExecutableForMdformat
  else pythonExecutableForMdformat.

(** Lines 279-389: the formatting run with the checked interpreter. *)
Definition invoke (env : Env) (pythonExecutableForMdformat : string) : M Promise :=
  emit (ChannelInfo ("Formatting with mdformat using: " ++ pythonExecutableForMdformat)) ;;
  let args := buildArgs env in
  let originalText := documentText env in
  let command := spawnCommand env pythonExecutableForMdformat in
  emit (Spawn command args (isWindows env)) ;;
  emit (StdinWrite originalText) ;;
  emit StdinEnd ;;
  inv <- deliver pythonExecutableForMdformat originalText
           (spawn env command args originalText)
           (mkInvocation EmptyString EmptyString Pending) ;;
  ret (promise inv).

Definition noInterpreterMessage : string :=
  "mdformat: Cannot format. No Python interpreter found. "
  ++ "Please ensure Python is installed and in your PATH, or select an interpreter using the Python extension, "
  ++ "or set the " ++ quoted "mdformat.pythonPath" ++ " setting.".

Definition provideDocumentFormattingEdits (env : Env) : M Promise :=
  currentInterpreterForFormatting <- getPythonInterpreter env ;;
  match currentInterpreterForFormatting with
  | Some (String _ _ as currentInterpreterForFormatting) =>
      recheckIfNeeded env currentInterpreterForFormatting ;;
      st <- get ;;
      match mdformatFound st, pythonPathUsedForLastCheck st with
      | Some true, Some (String _ _ as pythonExecutableForMdformat) =>
          invoke env pythonExecutableForMdformat
      | _, _ =>
          showMdformatNotAvailableError
            (or_else (pythonPathUsedForLastCheck st) (Some currentInterpreterForFormatting)) ;;
          ret (Resolved [])
      end
  | _ =>
      emit (ShowErrorMessage noInterpreterMessage) ;;
      ret (Resolved [])
  end.

(** ** The "mdformat.checkInstallation" command (lines 396-426) *)

Definition checkInstallation (env : Env) : M unit :=
  set_mdformatFound None ;;
  interpreterToManuallyCheck <- getPythonInterpreter env ;;
  match interpreterToManuallyCheck with
  | Some (String _ _ as interpreterToManuallyCheck) =>
      available <- checkMdformatAvailability env (Some interpreterToManuallyCheck) ;;
      st <- get ;;
      match available, pythonPathUsedForLastCheck st with
      | true, Some (String _ _ as checked) =>
          emit (ShowInformationMessage ("mdformat is available with: " ++ checked))
      | _, _ => showMdformatNotAvailableError (Some interpreterToManuallyCheck)
      end
  | _ =>
      emit (ShowInformationMessage
              ("Cannot check mdformat: No Python interpreter selected or configured via "
               ++ quoted "mdformat.pythonPath" ++ ".")) ;;
      showMdformatNotAvailableError None
  end.

(** ** Successive requests *)

(** [n] formatting requests, one after the other, against the same
    environment. *)
Fixpoint requests (env : Env) (n : nat) : M unit :=
  match n with
  | O => ret tt
  | S k => provideDocumentFormattingEdits env ;; requests env k
  end.

(** ** What an edit does to a document *)

(** The text of a document once the editor has applied a replacement of
    the range [rangeStart, rangeEnd) by [newText]. *)
Definition applyEdit (e : TextEdit) (text : string) : string :=
  substring 0 (rangeStart e) text
  ++ newText e
  ++ substring (rangeEnd e) (String.length text - rangeEnd e) text.

(** ** Observations on traces *)

Definition isExec (e : Event) : bool :=
  match e with Exec _ => true | _ => false end.

Definition isShowErrorMessage (e : Event) : bool :=
  match e with ShowErrorMessage _ => true | _ => false end.

(** How many availability checks ([cp.exec]) a trace holds. *)
Definition execCount (l : list Event) : nat := List.length (filter isExec l).

(** How many error notifications a trace holds. *)
Definition errorMessageCount (l : list Event) : nat :=
  List.length (filter isShowErrorMessage l).

Definition isExecSync (e : Event) : bool :=
  match e with ExecSync _ => true | _ => false end.

(** Events that are neither an availability check nor an error notification:
    all that interpreter discovery emits. *)
Definition quiet (e : Event) : bool := negb (isExec e) && negb (isShowErrorMessage e).

Definition notExec (e : Event) : bool := negb (isExec e).

Definition notShowErrorMessage (e : Event) : bool := negb (isShowErrorMessage e).

(** [m] only appends events that [P] accepts. *)
Definition appends {A : Type} (P : Event -> bool) (m : M A) : Prop :=
  forall st, exists d, log (snd (m st)) = (log st ++ d)%list /\ forallb P d = true.

(** [m] leaves both module-level variables as they are. *)
Definition keepsCache {A : Type} (m : M A) : Prop :=
  forall st,
    mdformatFound (snd (m st)) = mdformatFound st
    /\ pythonPathUsedForLastCheck (snd (m st)) = pythonPathUsedForLastCheck st.

(** The two module-level variables of a state. *)
Definition cacheOf (st : State) : option bool * option string :=
  (mdformatFound st, pythonPathUsedForLastCheck st).

(** ** Observations on the events of a child process *)

Definition isData (ev : ProcEvent) : bool :=
  match ev with
  | StdoutData _ | StderrData _ => true
  | _ => false
  end.

Definition isProcError (ev : ProcEvent) : bool :=
  match ev with
  | ProcError _ => true
  | _ => false
  end.

(** All that the process wrote to its standard output, chunk after chunk. *)
Fixpoint stdoutOf (evs : list ProcEvent) : string :=
  match evs with
  | [] => EmptyString
  | StdoutData data :: rest => data ++ stdoutOf rest
  | _ :: rest => stdoutOf rest
  end.

(** All that the process wrote to its standard error. *)
Fixpoint stderrOf (evs : list ProcEvent) : string :=
  match evs with
  | [] => EmptyString
  | StderrData data :: rest => data ++ stderrOf rest
  | _ :: rest => stderrOf rest
  end.

(** The signal a "close" event carries. *)
Definition signalOf (ev : ProcEvent) : option string :=
  match ev with
  | ProcClose _ signal _ => signal
  | _ => None
  end.

(** ** The formatting run a request reaches *)

(** The interpreter the provider formats with, the state in which it
    spawns the process, and the events of that process; [None] when the
    request ends before the formatting run (no interpreter, or mdformat not
    available). *)
Definition formattingRun (env : Env) (st : State) : option (string * State * list ProcEvent) :=
  match getPythonInterpreter env st with
  | (Some (String _ _ as cur), st1) =>
      let st2 := snd (recheckIfNeeded env cur st1) in
      match mdformatFound st2 with
      | Some true =>
          Some (cur, st2, spawn env (spawnCommand env cur) (buildArgs env) (documentText env))
      | _ => None
      end
  | _ => None
  end.

(** ** The outcome classification of the specification *)

Inductive InvocationOutcome : Type :=
| Success (outputText : string)
| ToolReportedFailure (exitCode : option Z) (stderrText : string)
| ProcessStartFailure (reason : string)
| TerminatedBySignal (signalName : string)
| Cancelled.

(** The priority order of the specification, on the event that ends the
    run and the output accumulated so far: start failure; then
    cancellation; then termination by a signal; then a non-zero exit code,
    with the accumulated standard error or, when that is empty, a generic
    message; then success with the accumulated standard output.  A data
    event ends nothing.  An absent exit code counts as non-zero. *)
Definition classification_spec (ev : ProcEvent) (out err : string) : option InvocationOutcome :=
  match ev with
  | StdoutData _ | StderrData _ => None
  | ProcError reason => Some (ProcessStartFailure reason)
  | ProcClose code signal cancelRequested =>
      Some
        (if cancelRequested then Cancelled
         else
           match signal with
           | Some signalName => TerminatedBySignal signalName
           | None =>
               let failure :=
                 ToolReportedFailure code
                   (if string_dec err EmptyString
                    then "mdformat exited with code " ++ ofCode code
                    else err) in
               match code with
               | Some n => if Z.eq_dec n 0 then Success out else failure
               | None => failure
               end
           end)
  end.

(** How the provider's promise carries each outcome. *)
Definition reportOf (originalText : string) (o : InvocationOutcome) : Promise :=
  match o with
  | Success outputText =>
      Resolved
        (if string_dec outputText EmptyString then []
         else if string_dec outputText originalText then []
         else [replaceFullRange originalText outputText])
  | ToolReportedFailure _ stderrText => Rejected (RejectString stderrText)
  | ProcessStartFailure reason => Rejected (RejectError reason)
  | TerminatedBySignal signalName =>
      Rejected (RejectString ("Terminated by signal " ++ signalName))
  | Cancelled => Rejected (RejectString "Cancelled")
  end.

(** ** Interpreter discovery: observations *)

(** The probe of [pyCmd] returns and its output contains "python",
    whatever the case of its letters. *)
Definition answersAsPython (env : Env) (pyCmd : string) : bool :=
  match execSync env (versionCommand pyCmd) with
  | Some commandOutput => includes (toLowerCase commandOutput) "python"
  | None => false
  end.

(** [s] has a substring that is [name] up to the case of its letters. *)
Definition containsIgnoringCase (s name : string) : Prop :=
  exists a m b, s = a ++ m ++ b /\ toLowerCase m = toLowerCase name.

(** The Python extension reports [r] as the first word of its execution
    command. *)
Definition suppliedByExtension (env : Env) (r : string) : Prop :=
  exists ext rest,
    pythonExtension env = Some ext
    /\ getExecutionDetails ext = Returns (Some (r :: rest)).

(** The elements of [l] up to and including the first that [p] accepts. *)
Fixpoint upToFirst {A : Type} (p : A -> bool) (l : list A) : list A :=
  match l with
  | [] => []
  | x :: rest => if p x then [x] else x :: upToFirst p rest
  end.

(** The [cp.execSync] calls of a trace, in order. *)
Definition probesOf (l : list Event) : list Event := filter isExecSync l.

Definition JSNumber_eq_dec (a b : JSNumber) : {a = b} + {a <> b}.
Proof.
  destruct a as [n p|t], b as [m q|u]; try (right; discriminate).
  - destruct (Z.eq_dec n m) as [->|N].
    + left. f_equal. apply UIP_dec, bool_dec.
    + right. congruence.
  - destruct (string_dec t u) as [->|N]; [left; reflexivity | right; congruence].
Defined.

Definition WrapOption_eq_dec (a b : WrapOption) : {a = b} + {a <> b}.
Proof. decide equality; [apply string_dec | apply JSNumber_eq_dec]. Defined.

(** ** Sample environments and states *)

(** A host that is not Windows, has no Python extension, default settings
    but for the interpreter path, and an mdformat that answers the
    availability check. *)
Definition sampleEnv (pythonPath : option string) (onDisk : string -> bool)
    (versionOutput : string -> option string) (text : string)
    (events : list ProcEvent) : Env :=
  {| isWindows := false;
     config_pythonPath := pythonPath;
     config_wrap := WrapString "keep";
     config_endOfLine := "keep";
     config_noValidate := Some false;
     config_args := [];
     accessSync := onDisk;
     pythonExtension := None;
     execSync := versionOutput;
     exec := fun _ => {| exec_error := None;
                         exec_stdout := "mdformat 0.7.17";
                         exec_stderr := EmptyString |};
     documentText := text;
     spawn := fun _ _ _ => events |}.

(** The interpreter path is configured and exists on disk. *)
Definition configuredEnv (text : string) (events : list ProcEvent) : Env :=
  sampleEnv (Some "/usr/bin/python3") (String.eqb "/usr/bin/python3")
    (fun _ => None) text events.

(** The configured path is the bare command "python3", which is no file;
    "python3" is on the PATH. *)
Definition barePython3Env : Env :=
  sampleEnv (Some "python3") (fun _ => false)
    (fun command =>
       if String.eqb command (versionCommand "python3")
       then Some ("Python 3.11.4" ++ lf)
       else None)
    "# H" [ProcClose (Some 0%Z) None false].

(** Nothing is configured; "python3" is not on the PATH, "python" is. *)
Definition pathEnv : Env :=
  sampleEnv None (fun _ => false)
    (fun command =>
       if String.eqb command (versionCommand "python")
       then Some ("Python 3.9.2" ++ lf)
       else None)
    "# H" [ProcClose (Some 0%Z) None false].

(** The Python extension is installed and active. *)
Definition activeExtensionEnv : Env :=
  {| isWindows := false;
     config_pythonPath := None;
     config_wrap := WrapString "keep";
     config_endOfLine := "keep";
     config_noValidate := None;
     config_args := [];
     accessSync := fun _ => false;
     pythonExtension :=
       Some {| isActive := true;
               activateExtension := Returns true;
               exportsSettings := true;
               getExecutionDetails := Returns (Some ["/venv/bin/python"]) |};
     execSync := fun _ => None;
     exec := fun _ => {| exec_error := None;
                         exec_stdout := "mdformat 0.7.17";
                         exec_stderr := EmptyString |};
     documentText := "# H";
     spawn := fun _ _ _ => [ProcClose (Some 0%Z) None false] |}.

(** The state at activation: nothing checked yet. *)
Definition initialState : State := mkState None None [].

(** mdformat was found with the configured interpreter. *)
Definition checkedState : State := mkState (Some true) (Some "/usr/bin/python3") [].

(** The document "# H" followed by two line feeds; mdformat returns it
    with one. *)
Definition headingEnv : Env :=
  configuredEnv ("# H" ++ lf ++ lf)
    [StdoutData ("# H" ++ lf); ProcClose (Some 0%Z) None false].

(** The document is two line feeds; mdformat exits cleanly and prints
    nothing. *)
Definition silentEnv : Env :=
  configuredEnv (lf ++ lf) [ProcClose (Some 0%Z) None false].

(** mdformat exits cleanly and prints only a warning, on its standard error. *)
Definition warningEnv : Env :=
  configuredEnv "# H" [StderrData "warning"; ProcClose (Some 0%Z) None false].

(** mdformat rejects the document. *)
Definition syntaxErrorEnv : Env :=
  configuredEnv "# H" [StderrData "syntax error"; ProcClose (Some 1%Z) None false].

(** The request is cancelled while mdformat runs. *)
Definition cancelledEnv : Env :=
  configuredEnv "# H" [StdoutData "# H"; ProcClose (Some 0%Z) None true].

(** The state in which the provider spawns the process, when it does. *)
Definition stateAtSpawn (env : Env) (st : State) : State :=
  match formattingRun env st with
  | Some (_, st2, _) => st2
  | None => st
  end.

(** ** Further observations *)

(** Events of interpreter discovery: log entries, the activation of the
    Python extension and version probes. *)
Definition discovery (e : Event) : bool :=
  match e with
  | ChannelInfo _ | ChannelWarn _ | ChannelError _ _ | ConsoleDebug _
  | ActivateExtension | ExecSync _ => true
  | _ => false
  end.

(** Events of discovery and of the availability check. *)
Definition checking (e : Event) : bool := discovery e || isExec e.

(** Events of the handlers of the child process: log entries and error
    notifications. *)
Definition handling (e : Event) : bool :=
  match e with
  | ChannelInfo _ | ChannelError _ _ | ShowErrorMessage _ => true
  | _ => false
  end.

Definition isProcessIO (e : Event) : bool :=
  match e with
  | Spawn _ _ _ | StdinWrite _ | StdinEnd => true
  | _ => false
  end.

(** The process the extension spawned and what it did to its standard
    input, in order. *)
Definition processIO (l : list Event) : list Event := filter isProcessIO l.

Definition isNotification (e : Event) : bool :=
  match e with
  | ShowErrorMessage _ | ShowInformationMessage _ => true
  | _ => false
  end.

(** The notifications shown to the user, in order. *)
Definition notificationsOf (l : list Event) : list Event := filter isNotification l.

(** [m] returns the same value from every state. *)
Definition stateless {A : Type} (m : M A) : Prop :=
  forall st st', fst (m st) = fst (m st').

(** A promise that, if resolved, carries no edit or one replacement of the
    whole of [originalText] by a text that is neither empty nor
    [originalText]. *)
Definition wholeOrNothing (originalText : string) (p : Promise) : Prop :=
  match p with
  | Resolved edits =>
      edits = []
      \/ exists out,
           edits = [replaceFullRange originalText out]
           /\ out <> EmptyString
           /\ out <> originalText
  | _ => True
  end.

(** The notification of lines 180-183 for an interpreter. *)
Definition notAvailableMessage (attemptedPythonPath : string) : string :=
  "mdformat was not found using "
  ++ ("the Python interpreter ('" ++ attemptedPythonPath ++ "')") ++ ". "
  ++ "Make sure you have selected the right Python interpreter (or set "
  ++ quoted "mdformat.pythonPath"
  ++ ") and have mdformat installed in that environment (e.g., 'pip install mdformat').".

(** The notification of lines 180-183 when there is no interpreter. *)
Definition noEnvironmentMessage : string :=
  "mdformat was not found using your Python environment (no interpreter was selected/found, or the path was invalid). "
  ++ "Make sure you have selected the right Python interpreter (or set "
  ++ quoted "mdformat.pythonPath"
  ++ ") and have mdformat installed in that environment (e.g., 'pip install mdformat').".

(** ** Further sample environments *)

(** Nothing is configured and no Python is on the PATH. *)
Definition noPythonEnv : Env :=
  sampleEnv None (fun _ => false) (fun _ => None) "# H" [].

(** The configured setting is the string "null". *)
Definition nullSettingEnv : Env :=
  sampleEnv (Some "null") (fun _ => true) (fun _ => None) "# H" [].

(** The configured interpreter exists and has no mdformat. *)
Definition unavailableEnv : Env :=
  {| isWindows := false;
     config_pythonPath := Some "/usr/bin/python3";
     config_wrap := WrapNumber (SafeInteger 88 eq_refl);
     config_endOfLine := "lf";
     config_noValidate := Some true;
     config_args := ["--number"];
     accessSync := String.eqb "/usr/bin/python3";
     pythonExtension := None;
     execSync := fun _ => None;
     exec := fun _ => {| exec_error := Some "Command failed";
                         exec_stdout := EmptyString;
                         exec_stderr := "No module named mdformat" |};
     documentText := "# H";
     spawn := fun _ _ _ => [] |}.

(** The process never closes. *)
Definition hungEnv : Env := configuredEnv "# H" [StdoutData "# H"].

(** The process fails to start; Node then reports the close with the
    negated error number. *)
Definition startFailureEnv : Env :=
  configuredEnv "# H" [ProcError "spawn /usr/bin/python3 ENOENT";
                       ProcClose (Some (-2)%Z) None false].

(** The process is killed. *)
Definition killedEnv : Env :=
  configuredEnv "# H" [StdoutData "# "; ProcClose None (Some "SIGKILL") false].

(** mdformat was found with the interpreter of the Python extension. *)
Definition venvCheckedState : State := mkState (Some true) (Some "/venv/bin/python") [].

(** The wrap setting is a number too large for plain decimal notation. *)
Definition hugeWrapEnv : Env :=
  {| isWindows := true;
     config_pythonPath := None;
     config_wrap := WrapNumber (OtherNumber "1e+21");
     config_endOfLine := "crlf";
     config_noValidate := None;
     config_args := ["--number"; "--wrap"; "40"];
     accessSync := fun _ => false;
     pythonExtension := None;
     execSync := fun _ => None;
     exec := fun _ => {| exec_error := None;
                         exec_stdout := "mdformat 0.7.17";
                         exec_stderr := EmptyString |};
     documentText := "# H";
     spawn := fun _ _ _ => [] |}.

(** * Properties *)

(** ** Running the monad *)

Lemma bind_run {A B : Type} (m : M A) (k : A -> M B) (st : State) :
  bind m k st = k (fst (m st)) (snd (m st)).
Proof. unfold bind. destruct (m st); reflexivity. Qed.

Lemma append_assoc (a b c : string) : (a ++ b) ++ c = a ++ (b ++ c).
Proof. induction a as [|x a IH]; simpl; [reflexivity | now rewrite IH]. Qed.

Lemma append_empty_r (a : string) : a ++ EmptyString = a.
Proof. induction a as [|x a IH]; simpl; [reflexivity | now rewrite IH]. Qed.

(** ** Frames: what a computation may add to the trace, and whether it
    touches the cache *)

Lemma appends_ret {A : Type} P (a : A) : appends P (ret a).
Proof. intros st. exists []. simpl. now rewrite app_nil_r. Qed.

Lemma keepsCache_ret {A : Type} (a : A) : keepsCache (ret a).
Proof. intros st. now split. Qed.

Lemma appends_bind {A B : Type} P (m : M A) (k : A -> M B) :
  appends P m -> (forall a, appends P (k a)) -> appends P (bind m k).
Proof.
  intros Hm Hk st. rewrite bind_run.
  destruct (Hm st) as [d1 [E1 F1]].
  destruct (Hk (fst (m st)) (snd (m st))) as [d2 [E2 F2]].
  exists (d1 ++ d2)%list. split.
  - now rewrite E2, E1, app_assoc.
  - rewrite forallb_app, F1, F2. reflexivity.
Qed.

Lemma keepsCache_bind {A B : Type} (m : M A) (k : A -> M B) :
  keepsCache m -> (forall a, keepsCache (k a)) -> keepsCache (bind m k).
Proof.
  intros Hm Hk st. rewrite bind_run.
  destruct (Hm st) as [E1 F1].
  destruct (Hk (fst (m st)) (snd (m st))) as [E2 F2].
  split; congruence.
Qed.

Lemma appends_emit P (e : Event) : P e = true -> appends P (emit e).
Proof. intros H st. exists [e]. simpl. now rewrite H. Qed.

Lemma keepsCache_emit (e : Event) : keepsCache (emit e).
Proof. intros st. now split. Qed.

Lemma appends_get P : appends P get.
Proof. intros st. exists []. simpl. now rewrite app_nil_r. Qed.

Lemma keepsCache_get : keepsCache get.
Proof. intros st. now split. Qed.

Lemma appends_set_mdformatFound P v : appends P (set_mdformatFound v).
Proof. intros st. exists []. simpl. now rewrite app_nil_r. Qed.

Lemma appends_set_pythonPathUsedForLastCheck P v :
  appends P (set_pythonPathUsedForLastCheck v).
Proof. intros st. exists []. simpl. now rewrite app_nil_r. Qed.

Lemma appends_weaken {A : Type} (P Q : Event -> bool) (m : M A) :
  (forall e, P e = true -> Q e = true) -> appends P m -> appends Q m.
Proof.
  intros HPQ Hm st. destruct (Hm st) as [d [E F]]. exists d. split; [exact E|].
  rewrite forallb_forall in *. auto.
Qed.

(** Case analysis on whatever a computation branches on, then the frame
    rules. *)
Ltac frame_step :=
  match goal with
  | |- appends _ (bind _ _) => apply appends_bind; [ | intro ]
  | |- keepsCache (bind _ _) => apply keepsCache_bind; [ | intro ]
  | |- appends _ (ret _) => apply appends_ret
  | |- keepsCache (ret _) => apply keepsCache_ret
  | |- appends _ (emit _) => apply appends_emit; reflexivity
  | |- keepsCache (emit _) => apply keepsCache_emit
  | |- appends _ get => apply appends_get
  | |- keepsCache get => apply keepsCache_get
  | |- appends _ (set_mdformatFound _) => apply appends_set_mdformatFound
  | |- appends _ (set_pythonPathUsedForLastCheck _) =>
      apply appends_set_pythonPathUsedForLastCheck
  | |- appends _ (match ?x with _ => _ end) => destruct x
  | |- keepsCache (match ?x with _ => _ end) => destruct x
  end.

Ltac frame := repeat frame_step.

Lemma probe_appends env cmds : appends quiet (probe env cmds).
Proof. induction cmds as [|c rest IH]; simpl; frame; exact IH. Qed.

Lemma probe_keepsCache env cmds : keepsCache (probe env cmds).
Proof. induction cmds as [|c rest IH]; simpl; frame; exact IH. Qed.

Lemma afterUserSetting_appends env : appends quiet (afterUserSetting env).
Proof.
  unfold afterUserSetting, fromPythonExtension, queryExtension, fromPath.
  frame; apply probe_appends.
Qed.

Lemma afterUserSetting_keepsCache env : keepsCache (afterUserSetting env).
Proof.
  unfold afterUserSetting, fromPythonExtension, queryExtension, fromPath.
  frame; apply probe_keepsCache.
Qed.

Lemma getPythonInterpreter_appends env : appends quiet (getPythonInterpreter env).
Proof.
  unfold getPythonInterpreter, fromUserSetting.
  frame; apply afterUserSetting_appends.
Qed.

Lemma getPythonInterpreter_keepsCache env : keepsCache (getPythonInterpreter env).
Proof.
  unfold getPythonInterpreter, fromUserSetting.
  frame; apply afterUserSetting_keepsCache.
Qed.

Lemma quiet_notExec e : quiet e = true -> notExec e = true.
Proof. unfold quiet, notExec. now intros [H _]%andb_true_iff. Qed.

Lemma quiet_notShowErrorMessage e : quiet e = true -> notShowErrorMessage e = true.
Proof. unfold quiet, notShowErrorMessage. now intros [_ H]%andb_true_iff. Qed.

(** ** Counting events *)

Lemma execCount_app l d : execCount (l ++ d) = execCount l + execCount d.
Proof. unfold execCount. now rewrite filter_app, length_app. Qed.

Lemma errorMessageCount_app l d :
  errorMessageCount (l ++ d) = errorMessageCount l + errorMessageCount d.
Proof. unfold errorMessageCount. now rewrite filter_app, length_app. Qed.

Lemma execCount_notExec d : forallb notExec d = true -> execCount d = 0.
Proof.
  unfold execCount, notExec. induction d as [|e d IH]; simpl; [reflexivity|].
  intros [He Hd]%andb_true_iff. destruct (isExec e); [discriminate | auto].
Qed.

Lemma errorMessageCount_notShow d :
  forallb notShowErrorMessage d = true -> errorMessageCount d = 0.
Proof.
  unfold errorMessageCount, notShowErrorMessage.
  induction d as [|e d IH]; simpl; [reflexivity|].
  intros [He Hd]%andb_true_iff. destruct (isShowErrorMessage e); [discriminate | auto].
Qed.

Lemma appends_execCount {A : Type} (m : M A) st :
  appends notExec m -> execCount (log (snd (m st))) = execCount (log st).
Proof.
  intros H. destruct (H st) as [d [E F]].
  rewrite E, execCount_app, (execCount_notExec d F). lia.
Qed.

Lemma appends_errorMessageCount {A : Type} (m : M A) st :
  appends notShowErrorMessage m ->
  errorMessageCount (log (snd (m st))) = errorMessageCount (log st).
Proof.
  intros H. destruct (H st) as [d [E F]].
  rewrite E, errorMessageCount_app, (errorMessageCount_notShow d F). lia.
Qed.

(** ** The availability check *)

(** A check of a given interpreter runs [cp.exec] once, records the
    interpreter and the verdict, and raises no error notification. *)
Lemma checkMdformatAvailability_given env c r st :
  let cur := String c r in
  let res := checkMdformatAvailability env (Some cur) st in
  let found := match exec_error (exec env (checkCommand cur)) with
               | Some _ => false
               | None => true
               end in
  fst res = found
  /\ mdformatFound (snd res) = Some found
  /\ pythonPathUsedForLastCheck (snd res) = Some cur
  /\ execCount (log (snd res)) = S (execCount (log st))
  /\ In (Exec (checkCommand cur)) (log (snd res))
  /\ errorMessageCount (log (snd res)) = errorMessageCount (log st).
Proof.
  intros cur res found. subst res found.
  unfold checkMdformatAvailability. simpl truthy_opt. cbv iota.
  rewrite bind_run. simpl fst. simpl snd. cbv iota beta. fold cur.
  destruct (exec_error (exec env (checkCommand cur))) as [message|] eqn:E.
  - destruct (truthy (exec_stderr (exec env (checkCommand cur)))) eqn:T;
      cbn -[checkCommand String.append execCount errorMessageCount In];
      repeat rewrite execCount_app; repeat rewrite errorMessageCount_app;
      repeat split; try (cbn; lia);
      repeat rewrite in_app_iff; cbn; auto 10.
  - cbn -[checkCommand String.append execCount errorMessageCount In];
      repeat rewrite execCount_app; repeat rewrite errorMessageCount_app;
      repeat split; try (cbn; lia);
      repeat rewrite in_app_iff; cbn; auto 10.
Qed.

(** ** The recheck policy *)

Lemma strict_eq_Some o s : strict_eq o (Some s) = true <-> o = Some s.
Proof.
  destruct o as [x|]; simpl.
  - rewrite String.eqb_eq. split; congruence.
  - split; discriminate.
Qed.

Lemma needsCheck_false st cur :
  needsCheck st cur = false
  <-> mdformatFound st = Some true /\ pythonPathUsedForLastCheck st = Some cur.
Proof.
  unfold needsCheck. rewrite <- strict_eq_Some.
  destruct (mdformatFound st) as [[|]|];
    destruct (strict_eq (pythonPathUsedForLastCheck st) (Some cur));
    simpl; intuition congruence.
Qed.

Lemma needsCheck_true st cur :
  needsCheck st cur = true
  <-> mdformatFound st = None
      \/ pythonPathUsedForLastCheck st <> Some cur
      \/ mdformatFound st = Some false.
Proof.
  unfold needsCheck. rewrite <- strict_eq_Some.
  destruct (mdformatFound st) as [[|]|];
    destruct (strict_eq (pythonPathUsedForLastCheck st) (Some cur));
    simpl; intuition congruence.
Qed.

Lemma recheckIfNeeded_skip env cur st :
  needsCheck st cur = false -> recheckIfNeeded env cur st = (tt, st).
Proof. intros H. unfold recheckIfNeeded. rewrite bind_run. simpl. now rewrite H. Qed.

Lemma recheckIfNeeded_run env c r st :
  let cur := String c r in
  let st' := snd (recheckIfNeeded env cur st) in
  needsCheck st cur = true ->
  mdformatFound st' = Some match exec_error (exec env (checkCommand cur)) with
                           | Some _ => false
                           | None => true
                           end
  /\ pythonPathUsedForLastCheck st' = Some cur
  /\ execCount (log st') = S (execCount (log st))
  /\ In (Exec (checkCommand cur)) (log st')
  /\ errorMessageCount (log st') = errorMessageCount (log st).
Proof.
  intros cur st' H. subst st'. unfold recheckIfNeeded.
  rewrite bind_run. change (fst (get st)) with st. change (snd (get st)) with st.
  rewrite H, bind_run.
  match goal with |- context [snd (emit ?e st)] => set (s0 := snd (emit e st)) end.
  rewrite bind_run. change (snd (ret tt ?s)) with s.
  destruct (checkMdformatAvailability_given env c r s0) as (_ & F & P & X & I & E).
  fold cur in F, P, X, I, E. cbv zeta in F, P, X, I, E.
  change (snd (ret tt ?s)) with s.
  rewrite F, P, X, E. repeat split; try exact I.
  - subst s0. cbn [snd emit log]. rewrite execCount_app. cbn. lia.
  - subst s0. cbn [snd emit log]. rewrite errorMessageCount_app. cbn. lia.
Qed.

(** After lines 253-266 the last-checked interpreter is the current one. *)
Lemma recheckIfNeeded_path env c r st :
  pythonPathUsedForLastCheck (snd (recheckIfNeeded env (String c r) st)) = Some (String c r).
Proof.
  destruct (needsCheck st (String c r)) eqn:N.
  - now apply recheckIfNeeded_run.
  - rewrite (recheckIfNeeded_skip _ _ _ N). now apply needsCheck_false in N.
Qed.

(** ** The formatting run *)

Lemma deliver_appends_notExec py orig evs inv : appends notExec (deliver py orig evs inv).
Proof.
  revert inv. induction evs as [|ev rest IH]; intros inv; simpl; frame.
  - destruct ev; simpl; unfold onError, onClose; frame.
  - apply IH.
Qed.

Lemma invoke_appends_notExec env py : appends notExec (invoke env py).
Proof. unfold invoke. frame. apply deliver_appends_notExec. Qed.

(** The provider once an interpreter is found: the check stage, then
    either the formatting run or the "not available" notification. *)
Lemma provideDocumentFormattingEdits_found env st c r st1 :
  let cur := String c r in
  let st2 := snd (recheckIfNeeded env cur st1) in
  getPythonInterpreter env st = (Some cur, st1) ->
  provideDocumentFormattingEdits env st
  = match mdformatFound st2 with
    | Some true => invoke env cur st2
    | _ => (Resolved [], snd (showMdformatNotAvailableError (Some cur) st2))
    end.
Proof.
  intros cur st2 H. unfold provideDocumentFormattingEdits.
  rewrite bind_run, H. cbn [fst snd]. subst cur. cbv iota.
  set (cur := String c r) in *.
  rewrite !bind_run. fold st2.
  change (fst (get st2)) with st2. change (snd (get st2)) with st2.
  pose proof (recheckIfNeeded_path env c r st1) as P. fold cur st2 in P.
  rewrite P. subst cur. cbv iota.
  destruct (mdformatFound st2) as [[|]|]; try reflexivity;
    unfold or_else; simpl truthy_opt; cbv iota; rewrite bind_run; reflexivity.
Qed.

Lemma appends_In {A : Type} P (m : M A) st e :
  appends P m -> In e (log st) -> In e (log (snd (m st))).
Proof.
  intros H I. destruct (H st) as [d [E _]]. rewrite E. apply in_or_app. now left.
Qed.

Lemma showMdformatNotAvailableError_appends p :
  appends notExec (showMdformatNotAvailableError p).
Proof. unfold showMdformatNotAvailableError. apply appends_emit. reflexivity. Qed.

(** C1: with the interpreter [cur] resolved for this request, the provider
    runs the availability check ([cp.exec], once) if and only if the cached
    verdict is unknown, or the last-checked interpreter is not [cur], or the
    cached verdict is "not found"; when the cache says "found" for [cur]
    no check runs and the provider goes on to the formatting run with
    [cur], the cache untouched. *)
Theorem recheck_iff_stale (env : Env) (st st1 : State) (cur : string) :
  getPythonInterpreter env st = (Some cur, st1) ->
  cur <> EmptyString ->
  let final := snd (provideDocumentFormattingEdits env st) in
  let stale :=
    mdformatFound st = None
    \/ pythonPathUsedForLastCheck st <> Some cur
    \/ mdformatFound st = Some false in
  let fresh :=
    mdformatFound st = Some true /\ pythonPathUsedForLastCheck st = Some cur in
  (execCount (log final) = S (execCount (log st)) <-> stale)
  /\ (execCount (log final) = execCount (log st) <-> fresh)
  /\ (stale -> In (Exec (checkCommand cur)) (log final))
  /\ (fresh ->
      provideDocumentFormattingEdits env st = invoke env cur st1
      /\ cacheOf st1 = cacheOf st).
Proof.
  intros H Hne final stale fresh.
  destruct cur as [|c r]; [congruence|]. set (cur := String c r) in *.
  pose proof (getPythonInterpreter_keepsCache env st) as [K1 K2].
  pose proof (appends_execCount (getPythonInterpreter env) st
                (appends_weaken _ _ _ quiet_notExec (getPythonInterpreter_appends env))) as X1.
  rewrite H in K1, K2, X1. cbn [snd] in K1, K2, X1.
  pose proof (provideDocumentFormattingEdits_found env st c r st1 H) as U.
  fold cur in U. cbv zeta in U.
  assert (Hstale : needsCheck st1 cur = true <-> stale).
  { rewrite needsCheck_true, K1, K2. reflexivity. }
  assert (Hfresh : needsCheck st1 cur = false <-> fresh).
  { rewrite needsCheck_false, K1, K2. reflexivity. }
  destruct (needsCheck st1 cur) eqn:N.
  - (* the check runs *)
    destruct (recheckIfNeeded_run env c r st1 N) as (F & P & X & I & _).
    fold cur in F, P, X, I.
    set (st2 := snd (recheckIfNeeded env cur st1)) in *.
    assert (C : execCount (log final) = S (execCount (log st))
                /\ In (Exec (checkCommand cur)) (log final)).
    { subst final. rewrite U.
      destruct (mdformatFound st2) as [[|]|].
      - rewrite (appends_execCount _ _ (invoke_appends_notExec env cur)), X, X1.
        split; [reflexivity|].
        now apply (appends_In _ _ _ _ (invoke_appends_notExec env cur)).
      - cbn [snd].
        rewrite (appends_execCount _ _ (showMdformatNotAvailableError_appends (Some cur))), X, X1.
        split; [reflexivity|].
        now apply (appends_In _ _ _ _ (showMdformatNotAvailableError_appends (Some cur))).
      - cbn [snd].
        rewrite (appends_execCount _ _ (showMdformatNotAvailableError_appends (Some cur))), X, X1.
        split; [reflexivity|].
        now apply (appends_In _ _ _ _ (showMdformatNotAvailableError_appends (Some cur))). }
    destruct C as [C1 C2].
    assert (S : stale) by now apply Hstale.
    assert (NF : ~ fresh) by (intros Fr; apply Hfresh in Fr; discriminate).
    split; [split; [intros _; exact S | intros _; exact C1]|].
    split; [split; [intros E; rewrite C1 in E; exfalso; lia | intros Fr; contradiction]|].
    split; [intros _; exact C2 | intros Fr; contradiction].
  - (* the cache is trusted *)
    assert (Fr : fresh) by now apply Hfresh.
    assert (NS : ~ stale) by (intros S; apply Hstale in S; discriminate).
    rewrite (recheckIfNeeded_skip env cur st1 N) in U. cbn [snd] in U.
    rewrite K1, (proj1 Fr) in U.
    assert (C : execCount (log final) = execCount (log st)).
    { subst final. rewrite U.
      now rewrite (appends_execCount _ _ (invoke_appends_notExec env cur)). }
    split; [split; [intros E; rewrite C in E; exfalso; lia | intros S; contradiction]|].
    split; [split; [intros _; exact Fr | intros _; exact C]|].
    split; [intros S; contradiction|].
    intros _. split; [exact U|]. unfold cacheOf. now rewrite K1, K2.
Qed.

Lemma recheck_iff_stale_witness :
  execCount (log (snd (provideDocumentFormattingEdits headingEnv checkedState)))
  = execCount (log checkedState).
Proof.
  refine (proj2 (proj1 (proj2 (recheck_iff_stale headingEnv checkedState
                                 (snd (getPythonInterpreter headingEnv checkedState))
                                 "/usr/bin/python3" _ _))) _).
  - vm_compute. reflexivity.
  - discriminate.
  - split; reflexivity.
Defined.

(** ** The events of the child process *)

Lemma truthy_iff s : truthy s = true <-> s <> EmptyString.
Proof. destruct s; simpl; split; congruence. Qed.

Lemma length_pos_iff s : (0 <? String.length s)%nat = true <-> s <> EmptyString.
Proof. destruct s; cbn; split; (congruence || discriminate || reflexivity). Qed.

Lemma deliver_cons py orig ev rest inv st :
  deliver py orig (ev :: rest) inv st
  = deliver py orig rest (fst (handle py orig ev inv st)) (snd (handle py orig ev inv st)).
Proof. simpl. now rewrite bind_run. Qed.

Lemma onError_fst py message inv st :
  fst (onError py message inv st) = settle inv (Rejected (RejectError message)).
Proof. reflexivity. Qed.

(** What the "close" handler settles the promise with, if still pending. *)
Lemma onClose_fst orig code signal cancelRequested inv st :
  fst (onClose orig code signal cancelRequested inv st)
  = settle inv
      (if cancelRequested then Rejected (RejectString "Cancelled")
       else if truthy_opt signal
            then Rejected (RejectString
                             ("Terminated by signal "
                              ++ match signal with Some s => s | None => EmptyString end))
            else match code with
                 | Some 0%Z =>
                     Resolved (if (0 <? String.length (stdout inv))%nat
                                  && negb (String.eqb (stdout inv) orig)
                               then [replaceFullRange orig (stdout inv)]
                               else [])
                 | _ =>
                     Rejected (RejectString
                                 (if truthy (stderr inv) then stderr inv
                                  else "mdformat exited with code " ++ ofCode code))
                 end).
Proof.
  unfold onClose.
  destruct cancelRequested; [reflexivity|].
  destruct signal as [[|c r]|]; simpl truthy_opt; cbv iota;
    try reflexivity;
    destruct code as [[|n|n]|]; try reflexivity;
    destruct ((0 <? String.length (stdout inv))%nat
              && negb (String.eqb (stdout inv) orig)); reflexivity.
Qed.

Lemma settle_settled inv p : promise inv <> Pending -> settle inv p = inv.
Proof. unfold settle. destruct (promise inv); congruence. Qed.

Lemma handle_settled py orig ev inv st :
  promise inv <> Pending -> promise (fst (handle py orig ev inv st)) = promise inv.
Proof.
  intros H. destruct ev; simpl handle.
  - reflexivity.
  - reflexivity.
  - now rewrite onError_fst, settle_settled.
  - now rewrite onClose_fst, settle_settled.
Qed.

(** Once the promise is settled, later events leave it as it is. *)
Lemma deliver_settled py orig evs inv st :
  promise inv <> Pending -> promise (fst (deliver py orig evs inv st)) = promise inv.
Proof.
  revert inv st. induction evs as [|ev rest IH]; intros inv st H; [reflexivity|].
  rewrite deliver_cons, IH; rewrite handle_settled; auto.
Qed.

(** Data events only grow the accumulated output. *)
Lemma deliver_data py orig datas evs o e p st :
  forallb isData datas = true ->
  deliver py orig (datas ++ evs) (mkInvocation o e p) st
  = deliver py orig evs (mkInvocation (o ++ stdoutOf datas) (e ++ stderrOf datas) p) st.
Proof.
  revert o e. induction datas as [|d datas IH]; intros o e H.
  - simpl. now rewrite !append_empty_r.
  - simpl in H. apply andb_true_iff in H as [Hd Hr].
    rewrite <- app_comm_cons, deliver_cons.
    destruct d; try discriminate; simpl handle; cbn [fst snd ret stdoutOf stderrOf];
      rewrite (IH _ _ Hr), ?append_assoc; reflexivity.
Qed.

(** The event that ends the run, met with a pending promise, settles it as
    the classification says; events that follow change nothing. *)
Lemma classify_event (py orig : string) (ev : ProcEvent) (rest : list ProcEvent)
    (out err : string) (st : State) :
  signalOf ev <> Some EmptyString ->
  match classification_spec ev out err with
  | Some outcome =>
      promise (fst (deliver py orig (ev :: rest) (mkInvocation out err Pending) st))
      = reportOf orig outcome
  | None =>
      promise (fst (handle py orig ev (mkInvocation out err Pending) st)) = Pending
  end.
Proof.
  intros Hsig.
  destruct ev as [data|data|message|code signal cancelRequested];
    cbn [classification_spec]; try reflexivity.
  - rewrite deliver_cons, deliver_settled; simpl handle; rewrite onError_fst;
      [reflexivity | discriminate].
  - assert (E : promise (fst (handle py orig (ProcClose code signal cancelRequested)
                                (mkInvocation out err Pending) st))
                = reportOf orig
                    (if cancelRequested then Cancelled
                     else match signal with
                          | Some signalName => TerminatedBySignal signalName
                          | None =>
                              let failure :=
                                ToolReportedFailure code
                                  (if string_dec err EmptyString
                                   then "mdformat exited with code " ++ ofCode code
                                   else err) in
                              match code with
                              | Some n => if Z.eq_dec n 0 then Success out else failure
                              | None => failure
                              end
                          end)).
    { simpl handle. rewrite onClose_fst. unfold settle. cbn [promise stdout stderr].
      destruct cancelRequested; [reflexivity|].
      destruct signal as [[|c r]|]; [now elim Hsig | reflexivity |].
      cbn [truthy_opt]. cbv zeta.
      assert (T : truthy err = if string_dec err EmptyString then false else true).
      { destruct err; reflexivity. }
      destruct code as [[|n|n]|]; cbn [reportOf]; rewrite ?T;
        try (destruct (string_dec err EmptyString); reflexivity).
      destruct (Z.eq_dec 0 0) as [_|N]; [|now elim N]. cbn [reportOf].
      destruct (string_dec out EmptyString) as [->|Ho]; [reflexivity|].
      apply length_pos_iff in Ho. rewrite Ho. cbn [andb].
      destruct (string_dec out orig) as [->|Hd].
      - now rewrite String.eqb_refl.
      - apply String.eqb_neq in Hd. now rewrite Hd. }
    rewrite deliver_cons, deliver_settled; [exact E|].
    rewrite E. destruct cancelRequested; [discriminate|].
    destruct signal; [discriminate|].
    cbv zeta. destruct code as [n|]; [destruct (Z.eq_dec n 0)|]; discriminate.
Qed.

(** C3: in a run of the handlers from a fresh promise, over the chunks the
    process writes and then the event [ev] that ends it, the promise is
    settled as the classification of the specification says, in its
    priority order: a start failure rejects with the error; otherwise a
    "close" under a requested cancellation rejects with "Cancelled",
    whatever the exit code, the signal and the output; otherwise a signal
    rejects with "Terminated by signal" and its name; otherwise an exit
    code other than 0 rejects with the accumulated standard error or, when
    that is empty, "mdformat exited with code N"; otherwise the promise
    resolves from the accumulated standard output.  Events that follow
    [ev] change nothing, and a further chunk leaves the promise pending. *)
Theorem classification_priority (py orig : string) (datas : list ProcEvent)
    (ev : ProcEvent) (rest : list ProcEvent) (st : State) :
  forallb isData datas = true ->
  signalOf ev <> Some EmptyString ->
  match classification_spec ev (stdoutOf datas) (stderrOf datas) with
  | Some outcome =>
      promise (fst (deliver py orig (datas ++ ev :: rest)
                      (mkInvocation EmptyString EmptyString Pending) st))
      = reportOf orig outcome
  | None =>
      promise (fst (deliver py orig (datas ++ [ev])
                      (mkInvocation EmptyString EmptyString Pending) st))
      = Pending
  end.
Proof.
  intros D Hsig.
  pose proof (classify_event py orig ev rest (stdoutOf datas) (stderrOf datas) st Hsig) as C.
  rewrite !(deliver_data _ _ _ _ _ _ _ _ D). cbn [String.append].
  destruct (classification_spec ev (stdoutOf datas) (stderrOf datas)) as [outcome|].
  - exact C.
  - rewrite deliver_cons. exact C.
Qed.

Lemma classification_priority_witness :
  promise (fst (deliver "/usr/bin/python3" "# H"
                  [StderrData "syntax "; StderrData "error";
                   ProcClose (Some 1%Z) None false; ProcError "late"]
                  (mkInvocation EmptyString EmptyString Pending) initialState))
  = Rejected (RejectString "syntax error").
Proof.
  refine (classification_priority "/usr/bin/python3" "# H"
            [StderrData "syntax "; StderrData "error"]
            (ProcClose (Some 1%Z) None false) [ProcError "late"] initialState _ _).
  - reflexivity.
  - discriminate.
Defined.

(** ** The formatting run *)

(** [invoke] logs, spawns, writes the document to the standard input and
    then lets the handlers run on the events of the process. *)
Lemma invoke_unfold env py st :
  exists st0,
    cacheOf st0 = cacheOf st
    /\ errorMessageCount (log st0) = errorMessageCount (log st)
    /\ invoke env py st
       = (promise (fst (deliver py (documentText env)
                          (spawn env (spawnCommand env py) (buildArgs env) (documentText env))
                          (mkInvocation EmptyString EmptyString Pending) st0)),
          snd (deliver py (documentText env)
                 (spawn env (spawnCommand env py) (buildArgs env) (documentText env))
                 (mkInvocation EmptyString EmptyString Pending) st0)).
Proof.
  unfold invoke. cbv zeta. rewrite !bind_run.
  match goal with
  | |- context [deliver _ _ _ _ ?s] => exists s
  end.
  split; [reflexivity|]. split; [|reflexivity].
  cbn [snd emit log]. rewrite !errorMessageCount_app. cbn. lia.
Qed.

Lemma onClose_keepsCache orig code signal c inv : keepsCache (onClose orig code signal c inv).
Proof. unfold onClose. frame. Qed.

(** The cache after the events of a process: downgraded for the spawned
    interpreter if the process failed to start, as before otherwise. *)
Lemma deliver_cache py orig evs inv st :
  cacheOf (snd (deliver py orig evs inv st))
  = if existsb isProcError evs then (Some false, Some py) else cacheOf st.
Proof.
  revert inv st. induction evs as [|ev rest IH]; intros inv st; [reflexivity|].
  rewrite deliver_cons, IH. destruct ev; cbn [existsb isProcError orb handle]; try reflexivity.
  - destruct (existsb isProcError rest); reflexivity.
  - destruct (onClose_keepsCache orig code signal cancelRequested inv st) as [K1 K2].
    unfold cacheOf. now rewrite K1, K2.
Qed.

(** A run that starts, writes and closes: the promise is what the "close"
    handler makes of the accumulated output. *)
Lemma invoke_close env py st datas code signal cancelRequested :
  spawn env (spawnCommand env py) (buildArgs env) (documentText env)
  = (datas ++ [ProcClose code signal cancelRequested])%list ->
  forallb isData datas = true ->
  exists st0,
    errorMessageCount (log st0) = errorMessageCount (log st)
    /\ invoke env py st
       = (promise (fst (onClose (documentText env) code signal cancelRequested
                          (mkInvocation (stdoutOf datas) (stderrOf datas) Pending) st0)),
          snd (onClose (documentText env) code signal cancelRequested
                 (mkInvocation (stdoutOf datas) (stderrOf datas) Pending) st0)).
Proof.
  intros E D. destruct (invoke_unfold env py st) as (st0 & _ & C & U).
  exists st0. split; [exact C|].
  rewrite U, E, (deliver_data _ _ _ _ _ _ _ _ D). cbn [String.append].
  rewrite deliver_cons. cbn [deliver ret fst snd handle]. reflexivity.
Qed.

Lemma recheckIfNeeded_errorMessageCount env c r st :
  errorMessageCount (log (snd (recheckIfNeeded env (String c r) st)))
  = errorMessageCount (log st).
Proof.
  destruct (needsCheck st (String c r)) eqn:N.
  - now apply recheckIfNeeded_run.
  - now rewrite (recheckIfNeeded_skip _ _ _ N).
Qed.

(** What [formattingRun] returns is the run of the provider. *)
Lemma formattingRun_provide env st cur st2 evs :
  formattingRun env st = Some (cur, st2, evs) ->
  provideDocumentFormattingEdits env st = invoke env cur st2
  /\ evs = spawn env (spawnCommand env cur) (buildArgs env) (documentText env)
  /\ cacheOf st2 = (Some true, Some cur)
  /\ errorMessageCount (log st2) = errorMessageCount (log st).
Proof.
  unfold formattingRun.
  destruct (getPythonInterpreter env st) as [[[|c r]|] st1] eqn:G; try discriminate.
  destruct (mdformatFound (snd (recheckIfNeeded env (String c r) st1))) as [[|]|] eqn:F;
    try discriminate.
  intros H. injection H as <- <- <-.
  pose proof (provideDocumentFormattingEdits_found env st c r st1 G) as U.
  cbv zeta in U. rewrite F in U.
  repeat split.
  - exact U.
  - unfold cacheOf. now rewrite F, recheckIfNeeded_path.
  - rewrite recheckIfNeeded_errorMessageCount.
    pose proof (appends_errorMessageCount (getPythonInterpreter env) st
                  (appends_weaken _ _ _ quiet_notShowErrorMessage
                     (getPythonInterpreter_appends env))) as X.
    now rewrite G in X.
Qed.

Lemma substring_none n s : substring n 0 s = EmptyString.
Proof.
  revert n. induction s as [|c s IH]; intros [|n]; simpl; auto.
Qed.

(** Applying the full-range replacement to the document gives the new
    text. *)
Lemma applyEdit_replaceFullRange orig out :
  applyEdit (replaceFullRange orig out) orig = out.
Proof.
  unfold applyEdit, replaceFullRange. cbn [rangeStart rangeEnd newText].
  rewrite Nat.sub_diag, !substring_none. simpl. apply append_empty_r.
Qed.

(** A clean exit: the edits come from the accumulated standard output. *)
Lemma provide_success env st cur st2 datas :
  formattingRun env st = Some (cur, st2, (datas ++ [ProcClose (Some 0%Z) None false])%list) ->
  forallb isData datas = true ->
  fst (provideDocumentFormattingEdits env st)
  = Resolved (if (0 <? String.length (stdoutOf datas))%nat
                 && negb (String.eqb (stdoutOf datas) (documentText env))
              then [replaceFullRange (documentText env) (stdoutOf datas)]
              else []).
Proof.
  intros R D. destruct (formattingRun_provide _ _ _ _ _ R) as (U & E & _ & _).
  destruct (invoke_close env cur st2 datas _ _ _ (eq_sym E) D) as (st0 & _ & I).
  rewrite U, I. cbn [fst]. rewrite onClose_fst. reflexivity.
Qed.

(** C2, amended: after a clean exit, output equal to the document gives no
    edit, and output that is not empty and differs from the document gives
    exactly one edit, which spans the whole document and turns it into the
    output. *)
Theorem success_edit (env : Env) (st st2 : State) (cur : string) (datas : list ProcEvent) :
  formattingRun env st = Some (cur, st2, (datas ++ [ProcClose (Some 0%Z) None false])%list) ->
  forallb isData datas = true ->
  let out := stdoutOf datas in
  let orig := documentText env in
  let result := fst (provideDocumentFormattingEdits env st) in
  (out = orig -> result = Resolved [])
  /\ (out <> EmptyString -> out <> orig ->
      result = Resolved [{| rangeStart := 0; rangeEnd := String.length orig; newText := out |}])
  /\ applyEdit {| rangeStart := 0; rangeEnd := String.length orig; newText := out |} orig = out.
Proof.
  intros R D out orig result.
  pose proof (provide_success env st cur st2 datas R D) as P.
  fold out orig result in P.
  split; [|split].
  - intros E. rewrite P, E, String.eqb_refl, andb_false_r. reflexivity.
  - intros Hne Hd. apply length_pos_iff in Hne. apply String.eqb_neq in Hd.
    rewrite P, Hne, Hd. reflexivity.
  - apply (applyEdit_replaceFullRange orig out).
Qed.

Lemma success_edit_witness :
  fst (provideDocumentFormattingEdits headingEnv initialState)
  = Resolved [{| rangeStart := 0; rangeEnd := 5; newText := "# H" ++ lf |}].
Proof.
  refine (proj1 (proj2 (success_edit headingEnv initialState
                          (stateAtSpawn headingEnv initialState) "/usr/bin/python3"
                          [StdoutData ("# H" ++ lf)] _ _)) _ _).
  - vm_compute. reflexivity.
  - reflexivity.
  - vm_compute. discriminate.
  - vm_compute. discriminate.
Defined.

(** C2 as stated fails: on a document of two line feeds mdformat exits
    cleanly with no output; the output differs from the input, and the
    provider returns no edit. *)
Lemma success_edit_counterexample :
  formattingRun silentEnv initialState
  = Some ("/usr/bin/python3", stateAtSpawn silentEnv initialState,
          [ProcClose (Some 0%Z) None false])
  /\ stdoutOf [ProcClose (Some 0%Z) None false] <> documentText silentEnv
  /\ fst (provideDocumentFormattingEdits silentEnv initialState) = Resolved []
  /\ ~ (exists edit,
          fst (provideDocumentFormattingEdits silentEnv initialState) = Resolved [edit]).
Proof.
  split; [vm_compute; reflexivity|].
  split; [vm_compute; discriminate|].
  split; [vm_compute; reflexivity|].
  intros [edit E]. vm_compute in E. discriminate.
Qed.

(** C10: after a clean exit with nothing on the standard output the
    provider returns no edit, whatever the document holds. *)
Theorem empty_output_no_edit (env : Env) (st st2 : State) (cur : string)
    (datas : list ProcEvent) :
  formattingRun env st = Some (cur, st2, (datas ++ [ProcClose (Some 0%Z) None false])%list) ->
  forallb isData datas = true ->
  stdoutOf datas = EmptyString ->
  fst (provideDocumentFormattingEdits env st) = Resolved [].
Proof.
  intros R D E. rewrite (provide_success env st cur st2 datas R D), E. reflexivity.
Qed.

Lemma empty_output_no_edit_witness :
  documentText warningEnv <> EmptyString
  /\ fst (provideDocumentFormattingEdits warningEnv initialState) = Resolved [].
Proof.
  split; [vm_compute; discriminate|].
  refine (empty_output_no_edit warningEnv initialState
            (stateAtSpawn warningEnv initialState)
            "/usr/bin/python3" [StderrData "warning"] _ _ _).
  - vm_compute. reflexivity.
  - reflexivity.
  - reflexivity.
Defined.

(** C4: in a request that reaches the formatting run with interpreter
    [cur], a process that fails to start leaves the cache at "not found"
    with [cur] as the last-checked interpreter, and a process that starts
    leaves it at "found" for [cur]; in particular a process that exits with
    a code other than 0 rejects the promise and leaves the cache at "found"
    for [cur]. *)
Theorem start_failure_downgrades_cache (env : Env) (st st2 : State) (cur : string)
    (evs : list ProcEvent) :
  formattingRun env st = Some (cur, st2, evs) ->
  let final := snd (provideDocumentFormattingEdits env st) in
  cacheOf final
  = (if existsb isProcError evs then (Some false, Some cur) else (Some true, Some cur))
  /\ (forall datas n,
        evs = (datas ++ [ProcClose (Some n) None false])%list ->
        forallb isData datas = true ->
        n <> 0%Z ->
        cacheOf final = (Some true, Some cur)
        /\ exists reason,
             fst (provideDocumentFormattingEdits env st) = Rejected (RejectString reason)).
Proof.
  intros R final.
  destruct (formattingRun_provide _ _ _ _ _ R) as (U & E & C & _).
  assert (K : cacheOf final
              = if existsb isProcError evs then (Some false, Some cur) else (Some true, Some cur)).
  { subst final. rewrite U.
    destruct (invoke_unfold env cur st2) as (st0 & C0 & _ & I).
    rewrite I. cbn [snd]. rewrite deliver_cache, <- E, C0, C. reflexivity. }
  split; [exact K|].
  intros datas n -> D Hn. split.
  - rewrite K, existsb_app. cbn [existsb isProcError orb].
    replace (existsb isProcError datas) with false; [reflexivity|].
    clear -D. induction datas as [|d datas IH]; [reflexivity|].
    simpl in D. apply andb_true_iff in D as [Hd Hr].
    simpl. rewrite <- (IH Hr). destruct d; try discriminate; reflexivity.
  - destruct (invoke_close env cur st2 datas _ _ _ (eq_sym E) D) as (st0 & _ & I).
    rewrite U, I. cbn [fst]. rewrite onClose_fst. cbn [settle promise truthy_opt].
    destruct n as [|n|n]; [congruence| |]; eexists; reflexivity.
Qed.

Lemma start_failure_downgrades_cache_witness :
  cacheOf (snd (provideDocumentFormattingEdits syntaxErrorEnv initialState))
  = (Some true, Some "/usr/bin/python3")
  /\ exists reason,
       fst (provideDocumentFormattingEdits syntaxErrorEnv initialState)
       = Rejected (RejectString reason).
Proof.
  refine (proj2 (start_failure_downgrades_cache syntaxErrorEnv initialState
                   (stateAtSpawn syntaxErrorEnv initialState) "/usr/bin/python3"
                   [StderrData "syntax error"; ProcClose (Some 1%Z) None false] _)
            [StderrData "syntax error"] 1%Z _ _ _).
  - vm_compute. reflexivity.
  - reflexivity.
  - reflexivity.
  - discriminate.
Defined.

(** C9: in a request that reaches the formatting run, a process that
    closes while cancellation is requested makes the provider reject with
    "Cancelled", and the whole request raises no error notification. *)
Theorem cancelled_without_error_message (env : Env) (st st2 : State) (cur : string)
    (datas : list ProcEvent) (code : option Z) (signal : option string) :
  formattingRun env st = Some (cur, st2, (datas ++ [ProcClose code signal true])%list) ->
  forallb isData datas = true ->
  fst (provideDocumentFormattingEdits env st) = Rejected (RejectString "Cancelled")
  /\ errorMessageCount (log (snd (provideDocumentFormattingEdits env st)))
     = errorMessageCount (log st).
Proof.
  intros R D.
  destruct (formattingRun_provide _ _ _ _ _ R) as (U & E & _ & X).
  destruct (invoke_close env cur st2 datas _ _ _ (eq_sym E) D) as (st0 & X0 & I).
  rewrite U, I. cbn [fst snd]. split.
  - reflexivity.
  - unfold onClose. rewrite bind_run. cbn [snd ret emit log].
    rewrite errorMessageCount_app. cbn. lia.
Qed.

Lemma cancelled_without_error_message_witness :
  fst (provideDocumentFormattingEdits cancelledEnv initialState)
  = Rejected (RejectString "Cancelled")
  /\ errorMessageCount (log (snd (provideDocumentFormattingEdits cancelledEnv initialState)))
     = errorMessageCount (log initialState).
Proof.
  refine (cancelled_without_error_message cancelledEnv initialState
            (stateAtSpawn cancelledEnv initialState) "/usr/bin/python3"
            [StdoutData "# H"] (Some 0%Z) None _ _).
  - vm_compute. reflexivity.
  - reflexivity.
Defined.

(** ** The arguments of the formatting run *)

(** C7: the arguments are, in this order: "-m" and "mdformat"; "--wrap"
    and the wrap value, exactly when the wrap setting is not the string
    "keep"; "--end-of-line" and its value, always; "--no-validate",
    exactly when the setting is [true]; the extra arguments of the
    settings, in their order; and "-".  The wrap value is the setting
    itself when it is a string, the decimal digits of a safe integer (after
    a "-" when it is negative), and for any other number the text [String]
    gives for it. *)
Theorem buildArgs_order (env : Env) :
  buildArgs env
  = (["-m"; "mdformat"]
     ++ (if WrapOption_eq_dec (config_wrap env) (WrapString "keep")
         then []
         else ["--wrap";
               match config_wrap env with
               | WrapString w => w
               | WrapNumber (SafeInteger n _) => NilZero.string_of_int (Z.to_int n)
               | WrapNumber (OtherNumber text) => text
               end])
     ++ ["--end-of-line"; config_endOfLine env]
     ++ (match config_noValidate env with
         | Some true => ["--no-validate"]
         | _ => []
         end)
     ++ config_args env
     ++ ["-"])%list.
Proof.
  unfold buildArgs. cbv zeta.
  assert (W : wrapDiffersFrom (config_wrap env) "keep" || wrapIsNumber (config_wrap env)
              = if WrapOption_eq_dec (config_wrap env) (WrapString "keep")
                then false else true).
  { destruct (WrapOption_eq_dec (config_wrap env) (WrapString "keep")) as [->|N].
    - reflexivity.
    - destruct (config_wrap env) as [w|n]; [|reflexivity].
      cbn [wrapDiffersFrom wrapIsNumber]. rewrite orb_false_r.
      apply negb_true_iff, String.eqb_neq. congruence. }
  assert (V : wrapToString (config_wrap env)
              = match config_wrap env with
                | WrapString w => w
                | WrapNumber (SafeInteger n _) => NilZero.string_of_int (Z.to_int n)
                | WrapNumber (OtherNumber text) => text
                end).
  { destruct (config_wrap env) as [w|[n safe|text]]; reflexivity. }
  rewrite W, V.
  destruct (WrapOption_eq_dec (config_wrap env) (WrapString "keep"));
    destruct (config_noValidate env) as [[|]|]; cbn [truthy_bool];
    repeat rewrite <- app_assoc; reflexivity.
Qed.

(** The arguments for some settings: a width of 88 with validation off
    and an extra argument; the defaults; a number beyond plain decimal
    notation, with extra arguments that repeat the wrap flag. *)
Example buildArgs_examples :
  buildArgs unavailableEnv
  = ["-m"; "mdformat"; "--wrap"; "88"; "--end-of-line"; "lf"; "--no-validate";
     "--number"; "-"]
  /\ buildArgs headingEnv = ["-m"; "mdformat"; "--end-of-line"; "keep"; "-"]
  /\ buildArgs hugeWrapEnv
     = ["-m"; "mdformat"; "--wrap"; "1e+21"; "--end-of-line"; "crlf";
        "--number"; "--wrap"; "40"; "-"].
Proof. repeat split. Qed.

(** ** Invalidation *)

(** C8: the listener that [activate] registers for interpreter changes
    sets [mdformatFound] to [undefined] and leaves
    [pythonPathUsedForLastCheck] as it is. *)
Theorem invalidation_keeps_runtime (env : Env) (listener : M unit) (st : State) :
  registeredListener env = Some listener ->
  mdformatFound (snd (listener st)) = None
  /\ pythonPathUsedForLastCheck (snd (listener st)) = pythonPathUsedForLastCheck st.
Proof.
  unfold registeredListener. intros H.
  destruct (pythonExtension env) as [ext|]; [|discriminate].
  destruct (isActive ext).
  - injection H as <-. split; reflexivity.
  - destruct (activateExtension ext); [discriminate|].
    injection H as <-. split; reflexivity.
Qed.

Lemma invalidation_keeps_runtime_witness :
  mdformatFound (snd (onDidChangeExecutionDetails_active checkedState)) = None
  /\ pythonPathUsedForLastCheck (snd (onDidChangeExecutionDetails_active checkedState))
     = Some "/usr/bin/python3".
Proof.
  refine (invalidation_keeps_runtime activeExtensionEnv
            onDidChangeExecutionDetails_active checkedState _).
  reflexivity.
Defined.

(** ** Substrings, whatever the case *)

Lemma prefix_iff a s : String.prefix a s = true <-> exists b, s = a ++ b.
Proof.
  revert s. induction a as [|x a IH]; intros s.
  - destruct s; simpl; split; eauto.
  - destruct s as [|y s]; simpl.
    + split; [discriminate | intros [b E]; discriminate].
    + destruct (ascii_dec x y) as [->|N].
      * rewrite IH. split; intros [b E]; exists b; congruence.
      * split; [discriminate | intros [b E]; congruence].
Qed.

Lemma includes_iff s sub : includes s sub = true <-> exists a b, s = a ++ sub ++ b.
Proof.
  split.
  - induction s as [|c s IH]; cbn [includes].
    + destruct (String.prefix sub EmptyString) eqn:P; [|discriminate].
      intros _. apply prefix_iff in P as [b E]. exists EmptyString, b. exact E.
    + destruct (String.prefix sub (String c s)) eqn:P.
      * intros _. apply prefix_iff in P as [b E]. exists EmptyString, b. exact E.
      * intros H. destruct (IH H) as (a & b & E). exists (String c a), b.
        simpl. now rewrite E.
  - intros (a & b & ->). induction a as [|c a IH].
    + assert (P : String.prefix sub (sub ++ b) = true) by (apply prefix_iff; eauto).
      cbn [String.append]. destruct (sub ++ b) eqn:E; cbn [includes]; rewrite P; reflexivity.
    + cbn [String.append includes]. destruct (String.prefix sub (String c (a ++ sub ++ b))); [reflexivity | exact IH].
Qed.

Lemma toLowerCase_app a b : toLowerCase (a ++ b) = toLowerCase a ++ toLowerCase b.
Proof. induction a as [|c a IH]; simpl; [reflexivity | now rewrite IH]. Qed.

Lemma toLowerCase_split s x y :
  toLowerCase s = x ++ y ->
  exists s1 s2, s = s1 ++ s2 /\ toLowerCase s1 = x /\ toLowerCase s2 = y.
Proof.
  revert s. induction x as [|c x IH]; intros s E.
  - exists EmptyString, s. auto.
  - destruct s as [|d s]; [discriminate|]. simpl in E. injection E as Ec Es.
    destruct (IH s Es) as (s1 & s2 & -> & L1 & L2).
    exists (String d s1), s2. simpl. rewrite Ec, L1. auto.
Qed.

(** The test of line 107 says that the output has "python" in it in some
    mix of upper and lower case. *)
Lemma includes_toLowerCase_python out :
  includes (toLowerCase out) "python" = true <-> containsIgnoringCase out "python".
Proof.
  rewrite includes_iff. unfold containsIgnoringCase. split.
  - intros (a' & b' & E).
    apply toLowerCase_split in E as (a & s2 & -> & _ & E2).
    apply toLowerCase_split in E2 as (m & b & -> & Em & _).
    exists a, m, b. split; [reflexivity | exact Em].
  - intros (a & m & b & -> & Em).
    exists (toLowerCase a), (toLowerCase b).
    rewrite !toLowerCase_app, Em. reflexivity.
Qed.

(** ** The PATH probe *)

Lemma probesOf_app l d : probesOf (l ++ d) = (probesOf l ++ probesOf d)%list.
Proof. apply filter_app. Qed.

Lemma probe_find env cmds st :
  fst (probe env cmds st) = find (answersAsPython env) cmds
  /\ probesOf (log (snd (probe env cmds st)))
     = (probesOf (log st)
        ++ map (fun pyCmd => ExecSync (versionCommand pyCmd))
             (upToFirst (answersAsPython env) cmds))%list.
Proof.
  revert st. induction cmds as [|c rest IH]; intros st.
  - simpl. now rewrite app_nil_r.
  - cbn [probe find upToFirst]. rewrite bind_run. unfold answersAsPython at 1 3.
    destruct (execSync env (versionCommand c)) as [out|].
    + destruct (includes (toLowerCase out) "python").
      * rewrite bind_run. cbn [fst snd ret emit log map].
        rewrite !probesOf_app. cbn. now rewrite app_nil_r.
      * destruct (IH (snd (emit (ExecSync (versionCommand c)) st))) as [F P].
        rewrite F, P. cbn [snd emit log map]. rewrite probesOf_app.
        cbn [probesOf filter isExecSync]. now rewrite <- app_assoc.
    + rewrite bind_run.
      match goal with
      | |- context [probe env rest ?s] => destruct (IH s) as [F P]
      end.
      rewrite F, P. cbn [snd emit log map]. rewrite !probesOf_app.
      cbn [probesOf filter isExecSync]. now rewrite app_nil_r, <- app_assoc.
Qed.

Lemma fromPath_find env st :
  fst (fromPath env st) = find (answersAsPython env) (commonPythons env)
  /\ probesOf (log (snd (fromPath env st)))
     = (probesOf (log st)
        ++ map (fun pyCmd => ExecSync (versionCommand pyCmd))
             (upToFirst (answersAsPython env) (commonPythons env)))%list.
Proof.
  split.
  - unfold fromPath. rewrite !bind_run.
    match goal with
    | |- context [probe env (commonPythons env) ?s] =>
        destruct (probe_find env (commonPythons env) s) as [F _];
        destruct (fst (probe env (commonPythons env) s)) as [pyCmd|]
    end; rewrite <- F; reflexivity.
  - unfold fromPath. rewrite !bind_run.
    match goal with
    | |- context [probe env (commonPythons env) ?s] =>
        destruct (probe_find env (commonPythons env) s) as [_ P];
        set (res := probe env (commonPythons env) s) in *
    end.
    assert (E : probesOf (log (snd res))
                = (probesOf (log st)
                   ++ map (fun pyCmd => ExecSync (versionCommand pyCmd))
                        (upToFirst (answersAsPython env) (commonPythons env)))%list).
    { rewrite P. cbn [snd emit log]. rewrite probesOf_app.
      cbn [probesOf filter isExecSync]. now rewrite app_nil_r. }
    destruct (fst res) as [pyCmd|].
    + exact E.
    + rewrite bind_run. cbn [snd ret emit log]. rewrite probesOf_app, E.
      cbn [probesOf filter isExecSync]. now rewrite app_nil_r.
Qed.

(** C6: the PATH probe returns the first command of the platform's list
    whose version query returns with "python" in its output, whatever the
    case, and returns it as it stands in the list; the commands it runs are
    those of the list, in order, up to and including that one, so that a
    command that fails or answers otherwise is passed over for the next. *)
Theorem path_probe_first_match (env : Env) (st : State) :
  commonPythons env
  = (if isWindows env
     then ["python.exe"; "python3.exe"; "py.exe"]
     else ["python3"; "python"])
  /\ fst (fromPath env st) = find (answersAsPython env) (commonPythons env)
  /\ probesOf (log (snd (fromPath env st)))
     = (probesOf (log st)
        ++ map (fun pyCmd => ExecSync (versionCommand pyCmd))
             (upToFirst (answersAsPython env) (commonPythons env)))%list
  /\ (forall pyCmd,
        answersAsPython env pyCmd = true
        <-> exists commandOutput,
              execSync env (versionCommand pyCmd) = Some commandOutput
              /\ containsIgnoringCase commandOutput "python").
Proof.
  split; [reflexivity|].
  split; [apply fromPath_find | split; [apply fromPath_find|]].
  - intros pyCmd. unfold answersAsPython.
    destruct (execSync env (versionCommand pyCmd)) as [out|].
    + rewrite includes_toLowerCase_python. split.
      * intros H. exists out. auto.
      * intros (o & E & H). now injection E as <-.
    + split; [discriminate | intros (o & E & _); discriminate].
Qed.

Example path_probe_example :
  fst (fromPath pathEnv initialState) = Some "python"
  /\ probesOf (log (snd (fromPath pathEnv initialState)))
     = [ExecSync (versionCommand "python3"); ExecSync (versionCommand "python")].
Proof. split; vm_compute; reflexivity. Qed.

(** ** The configured path *)

(** Where steps 2 and 3 take an interpreter from. *)
Lemma fromPythonExtension_source env st r :
  fst (fromPythonExtension env st) = Some r -> suppliedByExtension env r.
Proof.
  unfold fromPythonExtension, suppliedByExtension.
  destruct (pythonExtension env) as [ext|]; [|discriminate].
  assert (Q : forall active s, fst (queryExtension ext active s) = Some r ->
                exists rest, getExecutionDetails ext = Returns (Some (r :: rest))).
  { intros active s. unfold queryExtension.
    destruct (active && exportsSettings ext); [|discriminate].
    destruct (getExecutionDetails ext) as [err|[[|x rest]|]]; try discriminate.
    rewrite bind_run. cbn [fst ret]. intros E. injection E as ->. eauto. }
  destruct (isActive ext).
  - intros H. destruct (Q _ _ H) as [rest E]. eauto.
  - rewrite !bind_run. destruct (activateExtension ext) as [err|active]; [discriminate|].
    intros H. destruct (Q _ _ H) as [rest E]. eauto.
Qed.

Lemma afterUserSetting_source env st r :
  fst (afterUserSetting env st) = Some r ->
  suppliedByExtension env r
  \/ (In r (commonPythons env) /\ answersAsPython env r = true).
Proof.
  unfold afterUserSetting. rewrite bind_run.
  destruct (fst (fromPythonExtension env st)) as [p|] eqn:E.
  - cbn [fst ret]. intros H. injection H as ->. left.
    now apply (fromPythonExtension_source env st).
  - intros H. right.
    destruct (fromPath_find env (snd (fromPythonExtension env st))) as [F _].
    rewrite F in H. now apply find_some in H.
Qed.

(** C5, amended: a configured path that is not blank, is not "null" and
    does not exist on disk is not returned by the first step; the resolver
    logs that it is no valid file and goes on with the Python extension and
    then the PATH probe, and what it returns is the first word of the
    extension's execution command or a command of the platform's list that
    answered the probe. *)
Theorem invalid_configured_path_falls_through (env : Env) (p : string) (st : State) :
  config_pythonPath env = Some p ->
  trim p <> EmptyString ->
  p <> "null" ->
  accessSync env p = false ->
  getPythonInterpreter env st
  = afterUserSetting env
      (mkState (mdformatFound st) (pythonPathUsedForLastCheck st)
         (log st
          ++ [ChannelInfo ("Using Python interpreter from " ++ quoted "mdformat.pythonPath"
                           ++ ": " ++ p);
              ChannelError ("Provided pythonPath " ++ p
                            ++ " is not a valid file. Trying to find another interpreter.") []]))
  /\ (forall r,
        fst (getPythonInterpreter env st) = Some r ->
        suppliedByExtension env r
        \/ (In r (commonPythons env) /\ answersAsPython env r = true)).
Proof.
  intros C T N A.
  assert (E : getPythonInterpreter env st
              = afterUserSetting env
                  (mkState (mdformatFound st) (pythonPathUsedForLastCheck st)
                     (log st
                      ++ [ChannelInfo ("Using Python interpreter from "
                                       ++ quoted "mdformat.pythonPath" ++ ": " ++ p);
                          ChannelError ("Provided pythonPath " ++ p
                                        ++ " is not a valid file. Trying to find another interpreter.")
                            []]))).
  { unfold getPythonInterpreter, fromUserSetting. rewrite C.
    assert (Tp : truthy p = true) by (destruct p; [now elim T | reflexivity]).
    apply String.eqb_neq in T, N. rewrite Tp, T, N. cbn [andb negb].
    rewrite !bind_run, A, !bind_run. cbn [fst snd ret emit log mdformatFound
                                          pythonPathUsedForLastCheck].
    now rewrite <- app_assoc. }
  split; [exact E|].
  intros r. rewrite E. apply afterUserSetting_source.
Qed.

Lemma invalid_configured_path_falls_through_witness :
  suppliedByExtension barePython3Env "python3"
  \/ (In "python3" (commonPythons barePython3Env)
      /\ answersAsPython barePython3Env "python3" = true).
Proof.
  refine (proj2 (invalid_configured_path_falls_through barePython3Env "python3"
                   initialState _ _ _ _) "python3" _).
  - reflexivity.
  - vm_compute. discriminate.
  - discriminate.
  - reflexivity.
  - vm_compute. reflexivity.
Defined.

(** C5 as stated fails: the configured path "python3" is no file, and the
    resolver returns "python3" all the same, from the PATH probe. *)
Lemma invalid_configured_path_counterexample :
  config_pythonPath barePython3Env = Some "python3"
  /\ accessSync barePython3Env "python3" = false
  /\ fst (getPythonInterpreter barePython3Env initialState)
     = config_pythonPath barePython3Env.
Proof. repeat split. Qed.

(** * Further properties *)

(** ** More frames *)

Lemma stateless_ret {A : Type} (a : A) : stateless (ret a).
Proof. intros st st'. reflexivity. Qed.

Lemma stateless_emit (e : Event) : stateless (emit e).
Proof. intros st st'. reflexivity. Qed.

Lemma stateless_bind {A B : Type} (m : M A) (k : A -> M B) :
  stateless m -> (forall a, stateless (k a)) -> stateless (bind m k).
Proof.
  intros Hm Hk st st'. rewrite !bind_run, (Hm st st'). apply Hk.
Qed.

Ltac stateless_step :=
  match goal with
  | |- stateless (bind _ _) => apply stateless_bind; [ | intro ]
  | |- stateless (ret _) => apply stateless_ret
  | |- stateless (emit _) => apply stateless_emit
  | |- stateless (match ?x with _ => _ end) => destruct x
  end.

Lemma probe_stateless env cmds : stateless (probe env cmds).
Proof. induction cmds as [|c rest IH]; simpl; repeat stateless_step; exact IH. Qed.

Lemma getPythonInterpreter_stateless env : stateless (getPythonInterpreter env).
Proof.
  unfold getPythonInterpreter, fromUserSetting, afterUserSetting, fromPythonExtension,
    queryExtension, fromPath.
  repeat stateless_step; apply probe_stateless.
Qed.

Lemma probe_discovery env cmds : appends discovery (probe env cmds).
Proof. induction cmds as [|c rest IH]; simpl; frame; exact IH. Qed.

Lemma getPythonInterpreter_discovery env : appends discovery (getPythonInterpreter env).
Proof.
  unfold getPythonInterpreter, fromUserSetting, afterUserSetting, fromPythonExtension,
    queryExtension, fromPath.
  frame; apply probe_discovery.
Qed.

(** What a computation appends is invisible to a filter that rejects it. *)
Lemma filter_appends {A : Type} (f P : Event -> bool) (m : M A) st :
  appends P m ->
  (forall e, P e = true -> f e = false) ->
  filter f (log (snd (m st))) = filter f (log st).
Proof.
  intros H HP. destruct (H st) as [d [E F]]. rewrite E, filter_app.
  replace (filter f d) with (@nil Event); [now rewrite app_nil_r|].
  clear E. induction d as [|e d IH]; [reflexivity|].
  simpl in F. apply andb_true_iff in F as [Fe Fd].
  simpl. rewrite (HP e Fe). auto.
Qed.

Lemma discovery_not_notification e : discovery e = true -> isNotification e = false.
Proof. destruct e; simpl; congruence. Qed.

Lemma discovery_not_exec e : discovery e = true -> isExec e = false.
Proof. destruct e; simpl; congruence. Qed.

Lemma discovery_not_processIO e : discovery e = true -> isProcessIO e = false.
Proof. destruct e; simpl; congruence. Qed.

(** ** Interpreter discovery *)

(** X1: what the resolver returns does not depend on the module-level
    variables or on the trace; it leaves both variables as they are, shows
    no notification and calls neither [cp.exec] nor [cp.spawn]. *)
Theorem resolver_ignores_cache (env : Env) (st st' : State) :
  fst (getPythonInterpreter env st) = fst (getPythonInterpreter env st')
  /\ cacheOf (snd (getPythonInterpreter env st)) = cacheOf st
  /\ notificationsOf (log (snd (getPythonInterpreter env st))) = notificationsOf (log st)
  /\ execCount (log (snd (getPythonInterpreter env st))) = execCount (log st)
  /\ processIO (log (snd (getPythonInterpreter env st))) = processIO (log st).
Proof.
  split; [apply getPythonInterpreter_stateless|].
  split.
  { destruct (getPythonInterpreter_keepsCache env st) as [K1 K2].
    unfold cacheOf. now rewrite K1, K2. }
  split.
  { apply (filter_appends _ _ _ _ (getPythonInterpreter_discovery env)
             discovery_not_notification). }
  split.
  { unfold execCount.
    now rewrite (filter_appends _ _ _ _ (getPythonInterpreter_discovery env)
                   discovery_not_exec). }
  apply (filter_appends _ _ _ _ (getPythonInterpreter_discovery env)
           discovery_not_processIO).
Qed.

(** X2: a configured path that is not blank, is not "null" and exists on
    disk is returned at once: the trace gains one log entry, and neither
    the Python extension nor the PATH is looked at. *)
Theorem configured_path_wins (env : Env) (p : string) (st : State) :
  config_pythonPath env = Some p ->
  trim p <> EmptyString ->
  p <> "null" ->
  accessSync env p = true ->
  getPythonInterpreter env st
  = (Some p,
     mkState (mdformatFound st) (pythonPathUsedForLastCheck st)
       (log st
        ++ [ChannelInfo ("Using Python interpreter from " ++ quoted "mdformat.pythonPath"
                         ++ ": " ++ p)])).
Proof.
  intros C T N A. unfold getPythonInterpreter, fromUserSetting. rewrite C.
  assert (Tp : truthy p = true) by (destruct p; [now elim T | reflexivity]).
  apply String.eqb_neq in T, N. rewrite Tp, T, N. cbn [andb negb].
  rewrite !bind_run, A. reflexivity.
Qed.

Lemma configured_path_wins_witness :
  fst (getPythonInterpreter headingEnv initialState) = Some "/usr/bin/python3"
  /\ probesOf (log (snd (getPythonInterpreter headingEnv initialState))) = [].
Proof.
  rewrite (configured_path_wins headingEnv "/usr/bin/python3" initialState).
  - split; reflexivity.
  - reflexivity.
  - vm_compute. discriminate.
  - discriminate.
  - reflexivity.
Defined.

(** X3: a setting that is absent, blank (empty or white space only) or the
    string "null" makes the first step do nothing at all: nothing is
    logged, and the resolver is the Python extension step followed by the
    PATH probe, even when a file of that name exists. *)
Theorem unset_path_is_silent (env : Env) (st : State) :
  match config_pythonPath env with
  | Some p => trim p = EmptyString \/ p = "null"
  | None => True
  end ->
  getPythonInterpreter env st = afterUserSetting env st.
Proof.
  intros H. unfold getPythonInterpreter, fromUserSetting.
  destruct (config_pythonPath env) as [p|]; [|now rewrite bind_run].
  replace (truthy p && negb (String.eqb (trim p) EmptyString) && negb (String.eqb p "null"))
    with false; [now rewrite bind_run|].
  destruct H as [H|H].
  - rewrite H. cbn. now rewrite andb_false_r.
  - rewrite H. reflexivity.
Qed.

Lemma unset_path_is_silent_witness :
  accessSync nullSettingEnv "null" = true
  /\ getPythonInterpreter nullSettingEnv initialState
     = afterUserSetting nullSettingEnv initialState.
Proof.
  split; [reflexivity|].
  apply (unset_path_is_silent nullSettingEnv initialState).
  right. reflexivity.
Defined.

Lemma fromUserSetting_fails env st :
  (forall p, config_pythonPath env = Some p -> accessSync env p = false) ->
  fst (fromUserSetting env st) = None.
Proof.
  intros H. unfold fromUserSetting.
  destruct (config_pythonPath env) as [p|]; [|reflexivity].
  destruct (truthy p && negb (String.eqb (trim p) EmptyString) && negb (String.eqb p "null"));
    [|reflexivity].
  rewrite bind_run, (H p eq_refl), bind_run. reflexivity.
Qed.

Lemma fromUserSetting_probes env st :
  probesOf (log (snd (fromUserSetting env st))) = probesOf (log st).
Proof.
  apply (filter_appends isExecSync (fun e => negb (isExecSync e))).
  - unfold fromUserSetting. frame.
  - intros e. now destruct (isExecSync e).
Qed.

(** X4: when the configured path is absent or not on disk and the Python
    extension is active (or becomes active when activated), exports its
    settings and reports an execution command, the resolver returns the
    first word of that command and probes nothing on the PATH. *)
Theorem extension_beats_path (env : Env) (ext : PythonExtension) (r : string)
    (rest : list string) (st : State) :
  (forall p, config_pythonPath env = Some p -> accessSync env p = false) ->
  pythonExtension env = Some ext ->
  isActive ext = true \/ activateExtension ext = Returns true ->
  exportsSettings ext = true ->
  getExecutionDetails ext = Returns (Some (r :: rest)) ->
  fst (getPythonInterpreter env st) = Some r
  /\ probesOf (log (snd (getPythonInterpreter env st))) = probesOf (log st).
Proof.
  intros Hcfg Hext Hact Hexp Hdet.
  unfold getPythonInterpreter. rewrite bind_run, (fromUserSetting_fails env st Hcfg).
  pose proof (fromUserSetting_probes env st) as P0.
  set (s0 := snd (fromUserSetting env st)) in *.
  unfold afterUserSetting. rewrite bind_run.
  assert (Q : forall s, fst (queryExtension ext true s) = Some r
                        /\ probesOf (log (snd (queryExtension ext true s))) = probesOf (log s)).
  { intros s. unfold queryExtension. rewrite Hexp, Hdet. cbn [andb].
    rewrite bind_run. cbn [fst snd ret emit log]. split; [reflexivity|].
    rewrite probesOf_app. cbn. now rewrite app_nil_r. }
  assert (E : fst (fromPythonExtension env s0) = Some r
              /\ probesOf (log (snd (fromPythonExtension env s0))) = probesOf (log s0)).
  { unfold fromPythonExtension. rewrite Hext.
    destruct (isActive ext) eqn:A; [apply Q|].
    destruct Hact as [Hact|Hact]; [discriminate|].
    rewrite !bind_run, Hact.
    match goal with |- context [queryExtension ext true ?s] => destruct (Q s) as [Q1 Q2] end.
    rewrite Q1, Q2. split; [reflexivity|].
    cbn [snd emit log]. rewrite !probesOf_app. cbn. now rewrite !app_nil_r. }
  destruct E as [E1 E2]. rewrite E1. cbn [fst snd ret]. rewrite E2. auto.
Qed.

Lemma extension_beats_path_witness :
  fst (getPythonInterpreter activeExtensionEnv initialState) = Some "/venv/bin/python"
  /\ probesOf (log (snd (getPythonInterpreter activeExtensionEnv initialState)))
     = probesOf (log initialState).
Proof.
  refine (extension_beats_path activeExtensionEnv
            {| isActive := true;
               activateExtension := Returns true;
               exportsSettings := true;
               getExecutionDetails := Returns (Some ["/venv/bin/python"]) |}
            "/venv/bin/python" [] initialState _ _ _ _ _).
  - intros p H. discriminate.
  - reflexivity.
  - left. reflexivity.
  - reflexivity.
  - reflexivity.
Defined.

Lemma find_none_upToFirst {A : Type} (p : A -> bool) (l : list A) :
  find p l = None -> upToFirst p l = l /\ forallb (fun x => negb (p x)) l = true.
Proof.
  induction l as [|x l IH]; [auto|]. simpl.
  destruct (p x); [discriminate|]. intros H. destruct (IH H) as [U F].
  rewrite U, F. auto.
Qed.

(** The resolver as its three steps, each tried when the one before gave
    nothing. *)
Lemma getPythonInterpreter_None env st :
  fst (getPythonInterpreter env st) = None ->
  exists s0,
    probesOf (log s0) = probesOf (log st)
    /\ fst (fromPath env s0) = None
    /\ snd (getPythonInterpreter env st) = snd (fromPath env s0).
Proof.
  unfold getPythonInterpreter. rewrite bind_run.
  pose proof (fromUserSetting_probes env st) as P0.
  destruct (fst (fromUserSetting env st)) as [p|]; [discriminate|].
  set (s0 := snd (fromUserSetting env st)) in *.
  unfold afterUserSetting. rewrite bind_run.
  assert (P1 : probesOf (log (snd (fromPythonExtension env s0))) = probesOf (log s0)).
  { apply (filter_appends isExecSync (fun e => negb (isExecSync e))).
    - unfold fromPythonExtension, queryExtension. frame.
    - intros e. now destruct (isExecSync e). }
  destruct (fst (fromPythonExtension env s0)) as [p|]; [discriminate|].
  intros H. exists (snd (fromPythonExtension env s0)).
  split; [congruence|]. split; [exact H | reflexivity].
Qed.

(** X5: when the resolver finds no interpreter, every command of the
    platform's list was probed, in order, each failing or answering
    without "python" in its output, and the last thing logged is the
    warning that no interpreter was found. *)
Theorem resolver_none (env : Env) (st : State) :
  fst (getPythonInterpreter env st) = None ->
  forallb (fun pyCmd => negb (answersAsPython env pyCmd)) (commonPythons env) = true
  /\ probesOf (log (snd (getPythonInterpreter env st)))
     = (probesOf (log st)
        ++ map (fun pyCmd => ExecSync (versionCommand pyCmd)) (commonPythons env))%list
  /\ exists l,
       log (snd (getPythonInterpreter env st))
       = (l ++ [ChannelWarn "No suitable Python interpreter found through settings, Python extension, or system PATH."])%list.
Proof.
  intros H. destruct (getPythonInterpreter_None env st H) as (s0 & P0 & F & E).
  destruct (fromPath_find env s0) as [Ff Fp]. rewrite F in Ff. symmetry in Ff.
  destruct (find_none_upToFirst _ _ Ff) as [U A].
  split; [exact A|]. rewrite E. split.
  - now rewrite Fp, U, P0.
  - unfold fromPath in *. rewrite !bind_run in *.
    match goal with
    | |- context [probe env (commonPythons env) ?s] =>
        set (res := probe env (commonPythons env) s) in *
    end.
    destruct (fst res) as [pyCmd|]; [discriminate|].
    rewrite bind_run. cbn [snd ret emit log]. eauto.
Qed.

Lemma resolver_none_witness :
  probesOf (log (snd (getPythonInterpreter noPythonEnv initialState)))
  = [ExecSync (versionCommand "python3"); ExecSync (versionCommand "python")].
Proof.
  refine (proj1 (proj2 (resolver_none noPythonEnv initialState _))).
  reflexivity.
Defined.

(** X6: an interpreter the resolver returns is the configured path, which
    then is not blank, is not "null" and exists on disk; or the first word
    of the execution command the Python extension reports; or a command of
    the platform's list that answered the probe. *)
Theorem resolver_provenance (env : Env) (st : State) (r : string) :
  fst (getPythonInterpreter env st) = Some r ->
  (config_pythonPath env = Some r
   /\ trim r <> EmptyString /\ r <> "null" /\ accessSync env r = true)
  \/ suppliedByExtension env r
  \/ (In r (commonPythons env) /\ answersAsPython env r = true).
Proof.
  unfold getPythonInterpreter. rewrite bind_run.
  destruct (fst (fromUserSetting env st)) as [p|] eqn:E.
  - cbn [fst ret]. intros H. injection H as ->. left.
    unfold fromUserSetting in E.
    destruct (config_pythonPath env) as [q|]; [|discriminate].
    destruct (truthy q && negb (String.eqb (trim q) EmptyString)
              && negb (String.eqb q "null")) eqn:G; [|discriminate].
    rewrite bind_run in E. destruct (accessSync env q) eqn:A.
    + cbn [fst ret] in E. injection E as ->.
      apply andb_true_iff in G as [G N]. apply andb_true_iff in G as [_ T].
      apply negb_true_iff, String.eqb_neq in T, N. auto.
    + rewrite bind_run in E. discriminate.
  - intros H. right. exact (afterUserSetting_source env _ r H).
Qed.

Lemma resolver_provenance_witness :
  (config_pythonPath pathEnv = Some "python"
   /\ trim "python" <> EmptyString /\ "python" <> "null"
   /\ accessSync pathEnv "python" = true)
  \/ suppliedByExtension pathEnv "python"
  \/ (In "python" (commonPythons pathEnv) /\ answersAsPython pathEnv "python" = true).
Proof.
  refine (resolver_provenance pathEnv initialState "python" _).
  vm_compute. reflexivity.
Defined.

(** ** The availability check, in general *)

Lemma checking_not_notification e : checking e = true -> isNotification e = false.
Proof. destruct e; cbv; congruence. Qed.

Lemma checking_not_processIO e : checking e = true -> isProcessIO e = false.
Proof. destruct e; cbv; congruence. Qed.

Lemma discovery_checking e : discovery e = true -> checking e = true.
Proof. unfold checking. intros ->. reflexivity. Qed.

Lemma checkMdformatAvailability_checking env pythonToCheck :
  appends checking (checkMdformatAvailability env pythonToCheck).
Proof.
  unfold checkMdformatAvailability. frame.
  apply (appends_weaken _ _ _ discovery_checking), getPythonInterpreter_discovery.
Qed.

Lemma recheckIfNeeded_checking env cur : appends checking (recheckIfNeeded env cur).
Proof. unfold recheckIfNeeded. frame. apply checkMdformatAvailability_checking. Qed.

(** X7: whatever it is given, the availability check returns the verdict
    it stores in [mdformatFound]; a positive verdict comes with a
    last-checked interpreter that is not empty and whose check command
    succeeded; when no interpreter is recorded the verdict is negative and
    no check command was run.  The check shows no notification. *)
Theorem check_result_is_cached_verdict (env : Env) (pythonToCheck : option string)
    (st : State) :
  let res := checkMdformatAvailability env pythonToCheck st in
  mdformatFound (snd res) = Some (fst res)
  /\ (fst res = true ->
      exists p,
        p <> EmptyString
        /\ pythonPathUsedForLastCheck (snd res) = Some p
        /\ exec_error (exec env (checkCommand p)) = None)
  /\ (pythonPathUsedForLastCheck (snd res) = None ->
      fst res = false /\ execCount (log (snd res)) = execCount (log st))
  /\ notificationsOf (log (snd res)) = notificationsOf (log st).
Proof.
  intros res.
  assert (N : notificationsOf (log (snd res)) = notificationsOf (log st)).
  { apply (filter_appends _ _ _ _ (checkMdformatAvailability_checking env pythonToCheck)
             checking_not_notification). }
  cut (mdformatFound (snd res) = Some (fst res)
       /\ (fst res = true ->
           exists p,
             p <> EmptyString
             /\ pythonPathUsedForLastCheck (snd res) = Some p
             /\ exec_error (exec env (checkCommand p)) = None)
       /\ (pythonPathUsedForLastCheck (snd res) = None ->
           fst res = false /\ execCount (log (snd res)) = execCount (log st))).
  { intros (A & B & C). auto. }
  clear N. subst res. unfold checkMdformatAvailability. rewrite bind_run.
  set (r := (if truthy_opt pythonToCheck then ret pythonToCheck
             else getPythonInterpreter env) st).
  assert (X : execCount (log (snd r)) = execCount (log st)).
  { subst r. destruct (truthy_opt pythonToCheck); [reflexivity|].
    unfold execCount.
    now rewrite (filter_appends _ _ _ _ (getPythonInterpreter_discovery env)
                   discovery_not_exec). }
  assert (Absent :
            forall s : State,
              execCount (log s) = execCount (log st) ->
              let res := (emit (ChannelWarn "No Python interpreter path provided or found for mdformat check.") ;;
                          set_mdformatFound (Some false) ;;
                          set_pythonPathUsedForLastCheck None ;;
                          ret false) s in
              mdformatFound (snd res) = Some (fst res)
              /\ (fst res = true ->
                  exists p,
                    p <> EmptyString
                    /\ pythonPathUsedForLastCheck (snd res) = Some p
                    /\ exec_error (exec env (checkCommand p)) = None)
              /\ (pythonPathUsedForLastCheck (snd res) = None ->
                  fst res = false /\ execCount (log (snd res)) = execCount (log st))).
  { intros s Xs res. subst res. rewrite !bind_run.
    cbn [fst snd ret emit set_mdformatFound set_pythonPathUsedForLastCheck
         mdformatFound pythonPathUsedForLastCheck log].
    split; [reflexivity|]. split; [discriminate|]. intros _. split; [reflexivity|].
    rewrite execCount_app, Xs. cbn. lia. }
  destruct (fst r) as [[|c p]|]; [apply (Absent _ X) | | apply (Absent _ X)].
  set (cur := String c p). rewrite !bind_run.
  cbn [fst snd ret emit set_mdformatFound set_pythonPathUsedForLastCheck
       mdformatFound pythonPathUsedForLastCheck log].
  destruct (exec_error (exec env (checkCommand cur))) as [message|] eqn:E.
  - destruct (truthy (exec_stderr (exec env (checkCommand cur))));
      rewrite !bind_run;
      cbn [fst snd ret emit set_mdformatFound set_pythonPathUsedForLastCheck
           mdformatFound pythonPathUsedForLastCheck log];
      (split; [reflexivity|]; split; discriminate).
  - rewrite !bind_run.
    cbn [fst snd ret emit set_mdformatFound set_pythonPathUsedForLastCheck
         mdformatFound pythonPathUsedForLastCheck log].
    split; [reflexivity|]. split; [|discriminate].
    intros _. exists cur. repeat split; [discriminate | exact E].
Qed.

(** ** Requests that end before the formatting run *)

Lemma notificationsOf_app l d :
  notificationsOf (l ++ d) = (notificationsOf l ++ notificationsOf d)%list.
Proof. apply filter_app. Qed.

Lemma processIO_app l d : processIO (l ++ d) = (processIO l ++ processIO d)%list.
Proof. apply filter_app. Qed.

(** The resolver, as seen by the observations on traces. *)
Lemma getPythonInterpreter_frame env st :
  cacheOf (snd (getPythonInterpreter env st)) = cacheOf st
  /\ notificationsOf (log (snd (getPythonInterpreter env st))) = notificationsOf (log st)
  /\ execCount (log (snd (getPythonInterpreter env st))) = execCount (log st)
  /\ processIO (log (snd (getPythonInterpreter env st))) = processIO (log st).
Proof.
  split.
  { destruct (getPythonInterpreter_keepsCache env st) as [K1 K2].
    unfold cacheOf. now rewrite K1, K2. }
  split.
  { apply (filter_appends _ _ _ _ (getPythonInterpreter_discovery env)
             discovery_not_notification). }
  split.
  { unfold execCount.
    now rewrite (filter_appends _ _ _ _ (getPythonInterpreter_discovery env)
                   discovery_not_exec). }
  apply (filter_appends _ _ _ _ (getPythonInterpreter_discovery env)
           discovery_not_processIO).
Qed.

Lemma provide_no_interpreter (env : Env) (st : State) :
  truthy_opt (fst (getPythonInterpreter env st)) = false ->
  let res := provideDocumentFormattingEdits env st in
  fst res = Resolved []
  /\ cacheOf (snd res) = cacheOf st
  /\ execCount (log (snd res)) = execCount (log st)
  /\ processIO (log (snd res)) = processIO (log st)
  /\ notificationsOf (log (snd res))
     = (notificationsOf (log st) ++ [ShowErrorMessage noInterpreterMessage])%list.
Proof.
  intros H res. subst res.
  destruct (getPythonInterpreter_frame env st) as (C & N & X & P).
  unfold provideDocumentFormattingEdits. rewrite bind_run.
  set (s1 := snd (getPythonInterpreter env st)) in *.
  assert (E : forall s : State,
            (emit (ShowErrorMessage noInterpreterMessage) ;; ret (Resolved [])) s
            = (Resolved [],
               mkState (mdformatFound s) (pythonPathUsedForLastCheck s)
                 (log s ++ [ShowErrorMessage noInterpreterMessage]))).
  { intros s. now rewrite bind_run. }
  destruct (fst (getPythonInterpreter env st)) as [[|c r]|]; try discriminate;
    rewrite E; cbn [fst snd log];
    rewrite execCount_app, processIO_app, notificationsOf_app, N, X, P;
    repeat split; try exact C; cbn; try lia; now rewrite app_nil_r.
Qed.

(** X8: when the resolver finds no interpreter, or an empty one, the
    provider returns no edit and shows the "no interpreter" error; it runs
    no availability check, calls no [cp.spawn] and leaves both module-level
    variables as they were. *)
Theorem no_interpreter_no_subprocess (env : Env) (st : State) :
  truthy_opt (fst (getPythonInterpreter env st)) = false ->
  let res := provideDocumentFormattingEdits env st in
  fst res = Resolved []
  /\ cacheOf (snd res) = cacheOf st
  /\ execCount (log (snd res)) = execCount (log st)
  /\ processIO (log (snd res)) = processIO (log st)
  /\ notificationsOf (log (snd res))
     = (notificationsOf (log st) ++ [ShowErrorMessage noInterpreterMessage])%list.
Proof. exact (provide_no_interpreter env st). Qed.

Lemma no_interpreter_no_subprocess_witness :
  fst (provideDocumentFormattingEdits noPythonEnv checkedState) = Resolved []
  /\ cacheOf (snd (provideDocumentFormattingEdits noPythonEnv checkedState))
     = cacheOf checkedState.
Proof.
  refine ((fun H => conj (proj1 H) (proj1 (proj2 H)))
            (no_interpreter_no_subprocess noPythonEnv checkedState _)).
  reflexivity.
Defined.

Lemma showMdformatNotAvailableError_named c r st :
  showMdformatNotAvailableError (Some (String c r)) st
  = (tt, mkState (mdformatFound st) (pythonPathUsedForLastCheck st)
           (log st ++ [ShowErrorMessage (notAvailableMessage (String c r))])).
Proof. reflexivity. Qed.

Lemma provide_unavailable (env : Env) (st : State) (cur : string) :
  fst (getPythonInterpreter env st) = Some cur ->
  cur <> EmptyString ->
  formattingRun env st = None ->
  let res := provideDocumentFormattingEdits env st in
  fst res = Resolved []
  /\ cacheOf (snd res) = (Some false, Some cur)
  /\ exec_error (exec env (checkCommand cur)) <> None
  /\ execCount (log (snd res)) = S (execCount (log st))
  /\ processIO (log (snd res)) = processIO (log st)
  /\ notificationsOf (log (snd res))
     = (notificationsOf (log st) ++ [ShowErrorMessage (notAvailableMessage cur)])%list.
Proof.
  intros G Hne R res. subst res.
  destruct cur as [|c r]; [congruence|]. set (cur := String c r) in *.
  destruct (getPythonInterpreter_frame env st) as (C & N & X & P).
  destruct (getPythonInterpreter env st) as [o st1] eqn:G1.
  cbn [fst snd] in *. subst o.
  pose proof (provideDocumentFormattingEdits_found env st c r st1 G1) as U.
  fold cur in U. cbv zeta in U.
  unfold formattingRun in R. rewrite G1 in R. fold cur in R. cbv zeta in R.
  set (st2 := snd (recheckIfNeeded env cur st1)) in *.
  destruct (needsCheck st1 cur) eqn:K.
  - destruct (recheckIfNeeded_run env c r st1 K) as (F & Pa & Xr & _ & _).
    fold cur st2 in F, Pa, Xr.
    pose proof (filter_appends _ _ _ st1 (recheckIfNeeded_checking env cur)
                  checking_not_notification) as N2.
    pose proof (filter_appends _ _ _ st1 (recheckIfNeeded_checking env cur)
                  checking_not_processIO) as P2.
    fold st2 in N2, P2. fold (notificationsOf (log st2)) in N2.
    fold (notificationsOf (log st1)) in N2.
    fold (processIO (log st2)) in P2. fold (processIO (log st1)) in P2.
    destruct (exec_error (exec env (checkCommand cur))) as [message|] eqn:E.
    + rewrite F in U. rewrite U. unfold cur at 1 2.
      rewrite showMdformatNotAvailableError_named. fold cur.
      unfold cacheOf. simpl fst. simpl snd. simpl log. simpl mdformatFound.
      simpl pythonPathUsedForLastCheck.
      rewrite execCount_app, processIO_app, notificationsOf_app, F, Pa, Xr, X, N2, N, P2, P.
      repeat split; try discriminate; cbn; try lia; now rewrite ?app_nil_r.
    + rewrite F in R. discriminate.
  - subst st2. rewrite (recheckIfNeeded_skip env cur st1 K) in R. cbn [snd] in R.
    apply needsCheck_false in K as [K _]. rewrite K in R. discriminate.
Qed.

(** X9: when an interpreter is found and the request still ends before
    the formatting run, the availability check has just run, once, and
    failed: the cache holds "not found" for that interpreter, the provider
    returns no edit, calls no [cp.spawn], and shows one notification, which
    names the interpreter. *)
Theorem unavailable_names_interpreter (env : Env) (st : State) (cur : string) :
  fst (getPythonInterpreter env st) = Some cur ->
  cur <> EmptyString ->
  formattingRun env st = None ->
  let res := provideDocumentFormattingEdits env st in
  fst res = Resolved []
  /\ cacheOf (snd res) = (Some false, Some cur)
  /\ exec_error (exec env (checkCommand cur)) <> None
  /\ execCount (log (snd res)) = S (execCount (log st))
  /\ processIO (log (snd res)) = processIO (log st)
  /\ notificationsOf (log (snd res))
     = (notificationsOf (log st) ++ [ShowErrorMessage (notAvailableMessage cur)])%list.
Proof. exact (provide_unavailable env st cur). Qed.

Lemma unavailable_names_interpreter_witness :
  notificationsOf (log (snd (provideDocumentFormattingEdits unavailableEnv initialState)))
  = (notificationsOf (log initialState)
     ++ [ShowErrorMessage (notAvailableMessage "/usr/bin/python3")])%list.
Proof.
  refine (proj2 (proj2 (proj2 (proj2 (proj2
            (unavailable_names_interpreter unavailableEnv initialState
               "/usr/bin/python3" _ _ _)))))).
  - reflexivity.
  - discriminate.
  - reflexivity.
Defined.

(** ** One process per request *)

Lemma deliver_handling py orig evs inv : appends handling (deliver py orig evs inv).
Proof.
  revert inv. induction evs as [|ev rest IH]; intros inv; simpl; frame.
  - destruct ev; simpl; unfold onError, onClose; frame.
  - apply IH.
Qed.

(** The trace of the formatting run: a log entry, the spawn, the document
    written to the standard input, its end, then what the handlers emit. *)
Lemma invoke_log env py st :
  exists d,
    log (snd (invoke env py st))
    = (log st
       ++ [ChannelInfo ("Formatting with mdformat using: " ++ py);
           Spawn (spawnCommand env py) (buildArgs env) (isWindows env);
           StdinWrite (documentText env);
           StdinEnd]
       ++ d)%list
    /\ forallb handling d = true.
Proof.
  unfold invoke. cbv zeta. rewrite !bind_run. cbn [snd ret].
  match goal with
  | |- context [deliver ?a ?b ?c ?i ?s] =>
      destruct (deliver_handling a b c i s) as [d [E F]]
  end.
  exists d. split; [|exact F]. rewrite E. cbn [snd emit log].
  rewrite <- !app_assoc. reflexivity.
Qed.

Lemma handling_not_processIO d : forallb handling d = true -> processIO d = [].
Proof.
  induction d as [|e d IH]; [reflexivity|]. simpl. intros [He Hd]%andb_true_iff.
  destruct e; try discriminate; simpl; auto.
Qed.

Lemma invoke_processIO env py st :
  processIO (log (snd (invoke env py st)))
  = (processIO (log st)
     ++ [Spawn (spawnCommand env py) (buildArgs env) (isWindows env);
         StdinWrite (documentText env);
         StdinEnd])%list.
Proof.
  destruct (invoke_log env py st) as [d [E F]].
  rewrite E, !processIO_app, (handling_not_processIO d F). reflexivity.
Qed.

(** Up to the spawn, a request that reaches the formatting run has shown
    no notification and touched no process. *)
Lemma formattingRun_frame env st cur st2 evs :
  formattingRun env st = Some (cur, st2, evs) ->
  processIO (log st2) = processIO (log st)
  /\ notificationsOf (log st2) = notificationsOf (log st).
Proof.
  unfold formattingRun.
  destruct (getPythonInterpreter_frame env st) as (_ & N & _ & P).
  destruct (getPythonInterpreter env st) as [[[|c r]|] st1]; try discriminate.
  cbn [snd] in N, P.
  destruct (mdformatFound (snd (recheckIfNeeded env (String c r) st1))) as [[|]|];
    try discriminate.
  intros H. injection H as <- <- <-. split.
  - rewrite <- P.
    apply (filter_appends _ _ _ st1 (recheckIfNeeded_checking env (String c r))
             checking_not_processIO).
  - rewrite <- N.
    apply (filter_appends _ _ _ st1 (recheckIfNeeded_checking env (String c r))
             checking_not_notification).
Qed.

Lemma formattingRun_None env st :
  formattingRun env st = None ->
  truthy_opt (fst (getPythonInterpreter env st)) = false
  \/ exists cur, fst (getPythonInterpreter env st) = Some cur /\ cur <> EmptyString.
Proof.
  intros _. destruct (fst (getPythonInterpreter env st)) as [[|c r]|]; auto.
  right. exists (String c r). split; [reflexivity | discriminate].
Qed.

(** X10: a request calls [cp.spawn] exactly when it reaches the
    formatting run, and then exactly once: with the interpreter the check
    accepted (through the command interpreter with the UTF-8 code page on
    Windows) and the arguments of the settings; the whole document is
    written to its standard input, which is then closed.  A request that
    ends earlier calls no [cp.spawn]. *)
Theorem one_spawn_per_request (env : Env) (st : State) :
  processIO (log (snd (provideDocumentFormattingEdits env st)))
  = (processIO (log st)
     ++ match formattingRun env st with
        | Some (cur, _, _) =>
            [Spawn (if isWindows env then "cmd /c chcp 65001>nul &&" ++ cur else cur)
               (buildArgs env) (isWindows env);
             StdinWrite (documentText env);
             StdinEnd]
        | None => []
        end)%list.
Proof.
  destruct (formattingRun env st) as [[[cur st2] evs]|] eqn:R.
  - destruct (formattingRun_provide _ _ _ _ _ R) as (U & _).
    destruct (formattingRun_frame _ _ _ _ _ R) as (P & _).
    rewrite U, invoke_processIO, P. reflexivity.
  - rewrite app_nil_r. destruct (formattingRun_None env st R) as [H|(cur & G & Hne)].
    + apply (provide_no_interpreter env st H).
    + apply (provide_unavailable env st cur G Hne R).
Qed.

(** ** Successive requests *)

Lemma needsCheck_cacheOf st st' cur :
  cacheOf st = cacheOf st' -> needsCheck st cur = needsCheck st' cur.
Proof. unfold cacheOf, needsCheck. intros H. injection H as -> ->. reflexivity. Qed.

(** How many availability checks a request with an interpreter runs. *)
Lemma provide_execCount env st c r :
  fst (getPythonInterpreter env st) = Some (String c r) ->
  execCount (log (snd (provideDocumentFormattingEdits env st)))
  = execCount (log st) + (if needsCheck st (String c r) then 1 else 0).
Proof.
  intros G. set (cur := String c r) in *.
  destruct (getPythonInterpreter_frame env st) as (C & _ & X & _).
  destruct (getPythonInterpreter env st) as [o st1] eqn:G1. cbn [fst snd] in *. subst o.
  pose proof (provideDocumentFormattingEdits_found env st c r st1 G1) as U.
  fold cur in U. cbv zeta in U.
  rewrite <- (needsCheck_cacheOf _ _ cur C).
  set (st2 := snd (recheckIfNeeded env cur st1)) in *.
  assert (X2 : execCount (log st2)
               = execCount (log st) + (if needsCheck st1 cur then 1 else 0)).
  { destruct (needsCheck st1 cur) eqn:K.
    - destruct (recheckIfNeeded_run env c r st1 K) as (_ & _ & Xr & _).
      fold cur st2 in Xr. rewrite Xr, X. lia.
    - subst st2. rewrite (recheckIfNeeded_skip env cur st1 K). cbn [snd]. lia. }
  rewrite U. destruct (mdformatFound st2) as [[|]|].
  - now rewrite (appends_execCount _ _ (invoke_appends_notExec env cur)).
  - cbn [snd].
    now rewrite (appends_execCount _ _ (showMdformatNotAvailableError_appends (Some cur))).
  - cbn [snd].
    now rewrite (appends_execCount _ _ (showMdformatNotAvailableError_appends (Some cur))).
Qed.

(** The cache after a request that reaches the formatting run. *)
Lemma provide_cache env st cur st2 evs :
  formattingRun env st = Some (cur, st2, evs) ->
  cacheOf (snd (provideDocumentFormattingEdits env st))
  = if existsb isProcError evs then (Some false, Some cur) else (Some true, Some cur).
Proof.
  intros R. destruct (formattingRun_provide _ _ _ _ _ R) as (U & E & C & _).
  rewrite U. destruct (invoke_unfold env cur st2) as (st0 & C0 & _ & I).
  rewrite I. cbn [snd]. rewrite deliver_cache, <- E, C0, C. reflexivity.
Qed.

Lemma formattingRun_interpreter env st cur st2 evs :
  formattingRun env st = Some (cur, st2, evs) ->
  fst (getPythonInterpreter env st) = Some cur
  /\ cur <> EmptyString
  /\ evs = spawn env (spawnCommand env cur) (buildArgs env) (documentText env).
Proof.
  unfold formattingRun.
  destruct (getPythonInterpreter env st) as [[[|c r]|] st1]; try discriminate.
  destruct (mdformatFound (snd (recheckIfNeeded env (String c r) st1))) as [[|]|];
    try discriminate.
  intros H. injection H as <- <- <-. repeat split. discriminate.
Qed.

(** With "found" cached for the interpreter the resolver returns, a
    request goes straight to the formatting run. *)
Lemma formattingRun_hit env st cur :
  cacheOf st = (Some true, Some cur) ->
  fst (getPythonInterpreter env st) = Some cur ->
  cur <> EmptyString ->
  formattingRun env st
  = Some (cur, snd (getPythonInterpreter env st),
          spawn env (spawnCommand env cur) (buildArgs env) (documentText env)).
Proof.
  intros C G Hne. destruct cur as [|c r]; [congruence|].
  unfold formattingRun.
  destruct (getPythonInterpreter_frame env st) as (C1 & _).
  destruct (getPythonInterpreter env st) as [o st1]. cbn [fst snd] in *. subst o.
  assert (K : needsCheck st1 (String c r) = false).
  { apply needsCheck_false. rewrite C in C1. unfold cacheOf in C1.
    injection C1 as -> ->. auto. }
  rewrite (recheckIfNeeded_skip env _ st1 K). cbn [snd].
  apply needsCheck_false in K as [K _]. now rewrite K.
Qed.

Lemma requests_hit env cur n :
  forall st,
    cacheOf st = (Some true, Some cur) ->
    fst (getPythonInterpreter env st) = Some cur ->
    cur <> EmptyString ->
    existsb isProcError
      (spawn env (spawnCommand env cur) (buildArgs env) (documentText env)) = false ->
    execCount (log (snd (requests env n st))) = execCount (log st)
    /\ cacheOf (snd (requests env n st)) = (Some true, Some cur).
Proof.
  induction n as [|n IH]; intros st C G Hne Hev; [auto|].
  cbn [requests]. rewrite bind_run.
  set (s1 := snd (provideDocumentFormattingEdits env st)).
  pose proof (formattingRun_hit env st cur C G Hne) as R.
  pose proof (provide_cache _ _ _ _ _ R) as C1. rewrite Hev in C1. fold s1 in C1.
  assert (X1 : execCount (log s1) = execCount (log st)).
  { destruct cur as [|c r]; [congruence|]. subst s1.
    rewrite (provide_execCount env st c r G).
    replace (needsCheck st (String c r)) with false; [lia|].
    symmetry. apply needsCheck_false. unfold cacheOf in C. injection C as -> ->. auto. }
  assert (G1 : fst (getPythonInterpreter env s1) = Some cur).
  { now rewrite (getPythonInterpreter_stateless env s1 st). }
  destruct (IH s1 C1 G1 Hne Hev) as [X C2]. rewrite X, X1. auto.
Qed.

(** X11: once a request has reached the formatting run and the process
    has started, any number of further requests against the same
    environment run no availability check at all, and the cache stays at
    "found" for the interpreter. *)
Theorem cache_hit_across_requests (env : Env) (st st2 : State) (cur : string)
    (evs : list ProcEvent) (n : nat) :
  formattingRun env st = Some (cur, st2, evs) ->
  existsb isProcError evs = false ->
  let first := snd (provideDocumentFormattingEdits env st) in
  execCount (log (snd (requests env n first))) = execCount (log first)
  /\ cacheOf (snd (requests env n first)) = (Some true, Some cur).
Proof.
  intros R Hev first.
  destruct (formattingRun_interpreter _ _ _ _ _ R) as (G & Hne & E).
  pose proof (provide_cache _ _ _ _ _ R) as C. rewrite Hev in C. fold first in C.
  apply requests_hit; auto.
  - now rewrite (getPythonInterpreter_stateless env first st).
  - now rewrite <- E.
Qed.

Lemma cache_hit_across_requests_witness :
  execCount (log (snd (requests headingEnv 3
                         (snd (provideDocumentFormattingEdits headingEnv initialState)))))
  = execCount (log (snd (provideDocumentFormattingEdits headingEnv initialState))).
Proof.
  refine (proj1 (cache_hit_across_requests headingEnv initialState
                   (stateAtSpawn headingEnv initialState) "/usr/bin/python3"
                   [StdoutData ("# H" ++ lf); ProcClose (Some 0%Z) None false] 3 _ _)).
  - vm_compute. reflexivity.
  - reflexivity.
Defined.

(** X12: after a request whose process failed to start, the next request
    against the same environment runs the availability check again,
    once. *)
Theorem start_failure_forces_recheck (env : Env) (st st2 : State) (cur : string)
    (evs : list ProcEvent) :
  formattingRun env st = Some (cur, st2, evs) ->
  existsb isProcError evs = true ->
  let first := snd (provideDocumentFormattingEdits env st) in
  execCount (log (snd (provideDocumentFormattingEdits env first)))
  = S (execCount (log first)).
Proof.
  intros R Hev first.
  destruct (formattingRun_interpreter _ _ _ _ _ R) as (G & Hne & _).
  pose proof (provide_cache _ _ _ _ _ R) as C. rewrite Hev in C. fold first in C.
  destruct cur as [|c r]; [congruence|].
  assert (G1 : fst (getPythonInterpreter env first) = Some (String c r)).
  { now rewrite (getPythonInterpreter_stateless env first st). }
  rewrite (provide_execCount env first c r G1).
  replace (needsCheck first (String c r)) with true; [lia|].
  symmetry. apply needsCheck_true. unfold cacheOf in C. injection C as C _. auto.
Qed.

Lemma start_failure_forces_recheck_witness :
  execCount (log (snd (provideDocumentFormattingEdits startFailureEnv
                         (snd (provideDocumentFormattingEdits startFailureEnv checkedState)))))
  = S (execCount (log (snd (provideDocumentFormattingEdits startFailureEnv checkedState)))).
Proof.
  refine (start_failure_forces_recheck startFailureEnv checkedState
            (stateAtSpawn startFailureEnv checkedState) "/usr/bin/python3"
            [ProcError "spawn /usr/bin/python3 ENOENT"; ProcClose (Some (-2)%Z) None false]
            _ _).
  - vm_compute. reflexivity.
  - reflexivity.
Defined.

Lemma registeredListener_effect env listener st :
  registeredListener env = Some listener ->
  mdformatFound (snd (listener st)) = None
  /\ pythonPathUsedForLastCheck (snd (listener st)) = pythonPathUsedForLastCheck st
  /\ execCount (log (snd (listener st))) = execCount (log st).
Proof.
  unfold registeredListener. intros H.
  destruct (pythonExtension env) as [ext|]; [|discriminate].
  destruct (isActive ext).
  - injection H as <-. repeat split. cbn [snd]. simpl log.
    rewrite execCount_app. cbn. lia.
  - destruct (activateExtension ext); [discriminate|].
    injection H as <-. repeat split. simpl log.
    rewrite execCount_app. cbn. lia.
Qed.

(** X13: once the interpreter-change listener has run, the next request
    that finds an interpreter runs the availability check, once, whatever
    the cache held before. *)
Theorem invalidation_forces_recheck (env : Env) (listener : M unit) (st : State)
    (cur : string) :
  registeredListener env = Some listener ->
  fst (getPythonInterpreter env st) = Some cur ->
  cur <> EmptyString ->
  let invalidated := snd (listener st) in
  execCount (log (snd (provideDocumentFormattingEdits env invalidated)))
  = S (execCount (log invalidated)).
Proof.
  intros L G Hne invalidated.
  destruct (registeredListener_effect env listener st L) as (F & _ & _).
  fold invalidated in F.
  destruct cur as [|c r]; [congruence|].
  assert (G1 : fst (getPythonInterpreter env invalidated) = Some (String c r)).
  { now rewrite (getPythonInterpreter_stateless env invalidated st). }
  rewrite (provide_execCount env invalidated c r G1).
  replace (needsCheck invalidated (String c r)) with true; [lia|].
  symmetry. apply needsCheck_true. auto.
Qed.

Lemma invalidation_forces_recheck_witness :
  execCount (log (snd (provideDocumentFormattingEdits activeExtensionEnv
                         (snd (onDidChangeExecutionDetails_active venvCheckedState)))))
  = S (execCount (log (snd (onDidChangeExecutionDetails_active venvCheckedState)))).
Proof.
  refine (invalidation_forces_recheck activeExtensionEnv
            onDidChangeExecutionDetails_active venvCheckedState "/venv/bin/python" _ _ _).
  - reflexivity.
  - reflexivity.
  - discriminate.
Defined.

(** ** The "check installation" command *)

(** X14: when an interpreter is found, the command runs the availability
    check once whatever the cache held, records the verdict for that
    interpreter, calls no [cp.spawn], and shows one notification:
    that mdformat is available with the interpreter, or the error naming
    it. *)
Theorem checkInstallation_always_checks (env : Env) (st : State) (cur : string) :
  fst (getPythonInterpreter env st) = Some cur ->
  cur <> EmptyString ->
  let final := snd (checkInstallation env st) in
  let found := match exec_error (exec env (checkCommand cur)) with
               | Some _ => false
               | None => true
               end in
  execCount (log final) = S (execCount (log st))
  /\ cacheOf final = (Some found, Some cur)
  /\ processIO (log final) = processIO (log st)
  /\ notificationsOf (log final)
     = (notificationsOf (log st)
        ++ [if found
            then ShowInformationMessage ("mdformat is available with: " ++ cur)
            else ShowErrorMessage (notAvailableMessage cur)])%list.
Proof.
  intros G Hne final found. subst final.
  destruct cur as [|c r]; [congruence|]. set (cur := String c r) in *.
  unfold checkInstallation. rewrite bind_run.
  set (s0 := snd (set_mdformatFound None st)).
  assert (L0 : log s0 = log st) by reflexivity.
  rewrite bind_run.
  destruct (getPythonInterpreter_frame env s0) as (_ & N1 & X1 & P1).
  rewrite (getPythonInterpreter_stateless env s0 st), G.
  set (s1 := snd (getPythonInterpreter env s0)) in *.
  subst cur. cbv iota. set (cur := String c r) in *.
  rewrite !bind_run.
  destruct (checkMdformatAvailability_given env c r s1) as (F & MF & PA & X2 & _ & _).
  fold cur in F, MF, PA, X2. cbv zeta in F, MF, PA, X2. fold found in F, MF.
  pose proof (filter_appends _ _ _ s1 (checkMdformatAvailability_checking env (Some cur))
                checking_not_notification) as N2.
  pose proof (filter_appends _ _ _ s1 (checkMdformatAvailability_checking env (Some cur))
                checking_not_processIO) as P2.
  fold (notificationsOf (log (snd (checkMdformatAvailability env (Some cur) s1)))) in N2.
  fold (notificationsOf (log s1)) in N2.
  fold (processIO (log (snd (checkMdformatAvailability env (Some cur) s1)))) in P2.
  fold (processIO (log s1)) in P2.
  set (res := checkMdformatAvailability env (Some cur) s1) in *.
  change (fst (get (snd res))) with (snd res).
  change (snd (get (snd res))) with (snd res).
  rewrite F, PA. subst cur. cbv iota. set (cur := String c r) in *.
  rewrite L0 in *.
  destruct found.
  - unfold cacheOf. simpl snd. simpl log. simpl mdformatFound.
    simpl pythonPathUsedForLastCheck.
    rewrite execCount_app, processIO_app, notificationsOf_app, MF, PA, X2, X1, N2, N1, P2, P1.
    repeat split; cbn; try lia; now rewrite ?app_nil_r.
  - unfold cur at 1 2 3 4. rewrite showMdformatNotAvailableError_named. fold cur.
    unfold cacheOf. simpl snd. simpl log. simpl mdformatFound.
    simpl pythonPathUsedForLastCheck.
    rewrite execCount_app, processIO_app, notificationsOf_app, MF, PA, X2, X1, N2, N1, P2, P1.
    repeat split; cbn; try lia; now rewrite ?app_nil_r.
Qed.

Lemma checkInstallation_always_checks_witness :
  execCount (log (snd (checkInstallation headingEnv checkedState)))
  = S (execCount (log checkedState)).
Proof.
  refine (proj1 (checkInstallation_always_checks headingEnv checkedState
                   "/usr/bin/python3" _ _)).
  - reflexivity.
  - discriminate.
Defined.

(** X15: when no interpreter is found, the command runs no check, leaves
    the verdict at [undefined] and the last-checked interpreter as it was,
    and shows an information message followed by the "not found" error for
    the environment. *)
Theorem checkInstallation_no_interpreter (env : Env) (st : State) :
  truthy_opt (fst (getPythonInterpreter env st)) = false ->
  let final := snd (checkInstallation env st) in
  mdformatFound final = None
  /\ pythonPathUsedForLastCheck final = pythonPathUsedForLastCheck st
  /\ execCount (log final) = execCount (log st)
  /\ notificationsOf (log final)
     = (notificationsOf (log st)
        ++ [ShowInformationMessage
              ("Cannot check mdformat: No Python interpreter selected or configured via "
               ++ quoted "mdformat.pythonPath" ++ ".");
            ShowErrorMessage noEnvironmentMessage])%list.
Proof.
  intros H final. subst final.
  unfold checkInstallation. rewrite bind_run.
  set (s0 := snd (set_mdformatFound None st)).
  assert (L0 : log s0 = log st) by reflexivity.
  rewrite bind_run.
  destruct (getPythonInterpreter_frame env s0) as (C1 & N1 & X1 & _).
  rewrite (getPythonInterpreter_stateless env s0 st).
  set (s1 := snd (getPythonInterpreter env s0)) in *.
  unfold cacheOf in C1. injection C1 as C1 C2.
  assert (E : forall s : State,
            snd ((emit (ShowInformationMessage
                          ("Cannot check mdformat: No Python interpreter selected or configured via "
                           ++ quoted "mdformat.pythonPath" ++ ".")) ;;
                  showMdformatNotAvailableError None) s)
            = mkState (mdformatFound s) (pythonPathUsedForLastCheck s)
                (log s
                 ++ [ShowInformationMessage
                       ("Cannot check mdformat: No Python interpreter selected or configured via "
                        ++ quoted "mdformat.pythonPath" ++ ".");
                     ShowErrorMessage noEnvironmentMessage])).
  { intros s. rewrite bind_run. cbn [snd emit showMdformatNotAvailableError].
    simpl log. simpl mdformatFound. simpl pythonPathUsedForLastCheck.
    now rewrite <- app_assoc. }
  destruct (fst (getPythonInterpreter env st)) as [[|c r]|]; try discriminate;
    rewrite E; simpl log; simpl mdformatFound; simpl pythonPathUsedForLastCheck;
    rewrite execCount_app, notificationsOf_app, C1, C2, X1, N1, L0;
    repeat split; cbn; try lia; now rewrite ?app_nil_r.
Qed.

Lemma checkInstallation_no_interpreter_witness :
  mdformatFound (snd (checkInstallation noPythonEnv checkedState)) = None
  /\ pythonPathUsedForLastCheck (snd (checkInstallation noPythonEnv checkedState))
     = pythonPathUsedForLastCheck checkedState.
Proof.
  refine ((fun H => conj (proj1 H) (proj1 (proj2 H)))
            (checkInstallation_no_interpreter noPythonEnv checkedState _)).
  reflexivity.
Defined.

(** ** What the handlers show *)

(** The formatting run, with the state in which the handlers start. *)
Lemma invoke_handlers env py st :
  exists st0,
    cacheOf st0 = cacheOf st
    /\ notificationsOf (log st0) = notificationsOf (log st)
    /\ errorMessageCount (log st0) = errorMessageCount (log st)
    /\ invoke env py st
       = (promise (fst (deliver py (documentText env)
                          (spawn env (spawnCommand env py) (buildArgs env) (documentText env))
                          (mkInvocation EmptyString EmptyString Pending) st0)),
          snd (deliver py (documentText env)
                 (spawn env (spawnCommand env py) (buildArgs env) (documentText env))
                 (mkInvocation EmptyString EmptyString Pending) st0)).
Proof.
  unfold invoke. cbv zeta. rewrite !bind_run.
  match goal with
  | |- context [deliver _ _ _ _ ?s] => exists s
  end.
  split; [reflexivity|]. split; [|split; [|reflexivity]].
  - cbn [snd emit log]. rewrite !notificationsOf_app. cbn. now rewrite !app_nil_r.
  - cbn [snd emit log]. rewrite !errorMessageCount_app. cbn. lia.
Qed.

(** A request that reaches the formatting run, as the handlers run on the
    chunks and then on the events that follow. *)
Lemma provide_handlers env st cur st2 datas evs :
  formattingRun env st = Some (cur, st2, (datas ++ evs)%list) ->
  forallb isData datas = true ->
  exists st0,
    cacheOf st0 = (Some true, Some cur)
    /\ notificationsOf (log st0) = notificationsOf (log st)
    /\ errorMessageCount (log st0) = errorMessageCount (log st)
    /\ provideDocumentFormattingEdits env st
       = (promise (fst (deliver cur (documentText env) evs
                          (mkInvocation (stdoutOf datas) (stderrOf datas) Pending) st0)),
          snd (deliver cur (documentText env) evs
                 (mkInvocation (stdoutOf datas) (stderrOf datas) Pending) st0)).
Proof.
  intros R D.
  destruct (formattingRun_provide _ _ _ _ _ R) as (U & E & C & X).
  destruct (formattingRun_frame _ _ _ _ _ R) as (_ & N).
  destruct (invoke_handlers env cur st2) as (st0 & C0 & N0 & X0 & I).
  exists st0. repeat split; try congruence.
  rewrite U, I, <- E, (deliver_data _ _ _ _ _ _ _ _ D). reflexivity.
Qed.

Lemma handle_errorMessageCount py orig ev inv st :
  signalOf ev <> Some EmptyString ->
  errorMessageCount (log (snd (handle py orig ev inv st)))
  = errorMessageCount (log st)
    + match classification_spec ev (stdout inv) (stderr inv) with
      | Some (Success _) | Some Cancelled | None => 0
      | Some _ => 1
      end.
Proof.
  intros Hsig.
  destruct ev as [data|data|message|code signal cancelRequested]; cbn [handle classification_spec].
  - cbn. lia.
  - cbn. lia.
  - unfold onError. rewrite !bind_run. cbn [snd ret emit set_mdformatFound
                                             set_pythonPathUsedForLastCheck log].
    rewrite !errorMessageCount_app. cbn. lia.
  - unfold onClose. destruct cancelRequested.
    + rewrite bind_run. cbn [snd ret emit log]. rewrite errorMessageCount_app. cbn. lia.
    + destruct signal as [[|c r]|]; [now elim Hsig | |].
      * rewrite !bind_run. cbn [snd ret emit log]. rewrite !errorMessageCount_app. cbn. lia.
      * cbv zeta.
        destruct code as [[|n|n]|];
          try (rewrite !bind_run; cbn [snd ret emit log];
               rewrite !errorMessageCount_app; cbn; lia).
        destruct (Z.eq_dec 0 0) as [_|N]; [|now elim N].
        destruct ((0 <? String.length (stdout inv))%nat
                  && negb (String.eqb (stdout inv) orig)).
        -- rewrite bind_run. cbn [snd ret emit log]. rewrite errorMessageCount_app. cbn. lia.
        -- cbn [snd ret]. lia.
Qed.

(** X16: in a request that reaches the formatting run, where the process
    writes and then ends with one event, the provider shows exactly one
    error notification when the run ends in a start failure, a signal or
    an exit code other than 0, and none when it ends in success or under
    a requested cancellation. *)
Theorem one_message_per_failure (env : Env) (st st2 : State) (cur : string)
    (datas : list ProcEvent) (ev : ProcEvent) :
  formattingRun env st = Some (cur, st2, (datas ++ [ev])%list) ->
  forallb isData datas = true ->
  signalOf ev <> Some EmptyString ->
  errorMessageCount (log (snd (provideDocumentFormattingEdits env st)))
  = errorMessageCount (log st)
    + match classification_spec ev (stdoutOf datas) (stderrOf datas) with
      | Some (Success _) | Some Cancelled | None => 0
      | Some _ => 1
      end.
Proof.
  intros R D Hsig.
  destruct (provide_handlers env st cur st2 datas [ev] R D) as (st0 & _ & _ & X & U).
  rewrite U. cbn [snd]. rewrite deliver_cons. cbn [deliver ret snd].
  rewrite (handle_errorMessageCount _ _ _ _ _ Hsig). cbn [stdout stderr]. now rewrite X.
Qed.

Lemma one_message_per_failure_witness :
  errorMessageCount (log (snd (provideDocumentFormattingEdits killedEnv initialState)))
  = errorMessageCount (log initialState) + 1.
Proof.
  refine (one_message_per_failure killedEnv initialState
            (stateAtSpawn killedEnv initialState) "/usr/bin/python3"
            [StdoutData "# "] (ProcClose None (Some "SIGKILL") false) _ _ _).
  - vm_compute. reflexivity.
  - reflexivity.
  - discriminate.
Defined.

(** What the "close" handler adds to the trace for an exit code other
    than 0. *)
Lemma onClose_failure_log orig code inv st :
  code <> Some 0%Z ->
  notificationsOf (log (snd (onClose orig code None false inv st)))
  = (notificationsOf (log st)
     ++ [ShowErrorMessage
           ("mdformat formatting failed: "
            ++ (if String.eqb (trim (stderr inv)) EmptyString
                then "mdformat exited with code " ++ ofCode code ++ ". Check "
                     ++ quoted "Output > mdformat" ++ " for details."
                else trim (stderr inv)))])%list.
Proof.
  intros Hc. unfold onClose.
  assert (T : truthy (trim (stderr inv))
              = negb (String.eqb (trim (stderr inv)) EmptyString)).
  { destruct (trim (stderr inv)); reflexivity. }
  destruct code as [[|n|n]|]; [congruence| | |];
    rewrite !bind_run; cbn [snd ret emit log]; rewrite !notificationsOf_app; rewrite T;
    destruct (String.eqb (trim (stderr inv)) EmptyString); cbn [negb];
    cbn [notificationsOf filter isNotification]; now rewrite !app_nil_r.
Qed.

(** X17: when the process exits with a code other than 0, the provider
    shows one notification, "mdformat formatting failed: " followed by the
    standard error stripped of surrounding white space or, when that is
    blank, by a message with the exit code; the promise is rejected with the
    standard error as it came or, when that is empty, with a message with
    the exit code. *)
Theorem tool_failure_message (env : Env) (st st2 : State) (cur : string)
    (datas : list ProcEvent) (code : option Z) :
  formattingRun env st = Some (cur, st2, (datas ++ [ProcClose code None false])%list) ->
  forallb isData datas = true ->
  code <> Some 0%Z ->
  let err := stderrOf datas in
  notificationsOf (log (snd (provideDocumentFormattingEdits env st)))
  = (notificationsOf (log st)
     ++ [ShowErrorMessage
           ("mdformat formatting failed: "
            ++ (if String.eqb (trim err) EmptyString
                then "mdformat exited with code " ++ ofCode code ++ ". Check "
                     ++ quoted "Output > mdformat" ++ " for details."
                else trim err))])%list
  /\ fst (provideDocumentFormattingEdits env st)
     = Rejected (RejectString
                   (if String.eqb err EmptyString
                    then "mdformat exited with code " ++ ofCode code
                    else err)).
Proof.
  intros R D Hc err.
  destruct (provide_handlers env st cur st2 datas _ R D) as (st0 & _ & N & _ & U).
  rewrite U. cbn [fst snd]. rewrite deliver_cons. cbn [deliver ret fst snd handle]. split.
  - rewrite (onClose_failure_log _ _ _ _ Hc), N. reflexivity.
  - rewrite onClose_fst. cbn [settle promise truthy_opt stderr]. fold err.
    assert (T : truthy err = negb (String.eqb err EmptyString)) by (destruct err; reflexivity).
    rewrite T.
    destruct code as [[|n|n]|]; [congruence| | |];
      destruct (String.eqb err EmptyString); reflexivity.
Qed.

Lemma tool_failure_message_witness :
  notificationsOf (log (snd (provideDocumentFormattingEdits syntaxErrorEnv initialState)))
  = [ShowErrorMessage "mdformat formatting failed: syntax error"].
Proof.
  refine (proj1 (tool_failure_message syntaxErrorEnv initialState
                   (stateAtSpawn syntaxErrorEnv initialState) "/usr/bin/python3"
                   [StderrData "syntax error"] (Some 1%Z) _ _ _)).
  - vm_compute. reflexivity.
  - reflexivity.
  - discriminate.
Defined.

(** X18: when the process fails to start and its "close" then follows
    with an exit code other than 0 (as Node reports a failed spawn), the
    promise is rejected with the start error, and the provider shows two
    error notifications: the start failure, naming the interpreter, and
    then "mdformat formatting failed" with the exit code. *)
Theorem start_failure_shows_two_messages (env : Env) (st st2 : State) (cur message : string)
    (code : option Z) :
  formattingRun env st
  = Some (cur, st2, [ProcError message; ProcClose code None false]) ->
  code <> Some 0%Z ->
  fst (provideDocumentFormattingEdits env st) = Rejected (RejectError message)
  /\ notificationsOf (log (snd (provideDocumentFormattingEdits env st)))
     = (notificationsOf (log st)
        ++ [ShowErrorMessage ("mdformat failed to start: " ++ message ++ ". Is "
                              ++ quoted cur ++ " a valid Python path?");
            ShowErrorMessage ("mdformat formatting failed: mdformat exited with code "
                              ++ ofCode code ++ ". Check "
                              ++ quoted "Output > mdformat" ++ " for details.")])%list.
Proof.
  intros R Hc.
  destruct (provide_handlers env st cur st2 [] _ R eq_refl) as (st0 & _ & N & _ & U).
  rewrite U. cbn [fst snd stdoutOf stderrOf]. split.
  - rewrite deliver_cons, deliver_settled; cbn [handle]; rewrite onError_fst;
      [reflexivity | discriminate].
  - rewrite deliver_cons. cbn [handle]. rewrite deliver_cons. cbn [deliver ret snd handle].
    rewrite (onClose_failure_log _ _ _ _ Hc), onError_fst.
    unfold settle. cbn [promise stderr trim trimStart trimEnd String.eqb].
    unfold onError. rewrite !bind_run.
    cbn [snd ret emit set_mdformatFound set_pythonPathUsedForLastCheck log].
    rewrite !notificationsOf_app, N.
    cbn [notificationsOf filter isNotification]. rewrite !app_nil_r, <- app_assoc.
    reflexivity.
Qed.

Lemma start_failure_shows_two_messages_witness :
  notificationsOf (log (snd (provideDocumentFormattingEdits startFailureEnv initialState)))
  = [ShowErrorMessage ("mdformat failed to start: spawn /usr/bin/python3 ENOENT. Is "
                       ++ quoted "/usr/bin/python3" ++ " a valid Python path?");
     ShowErrorMessage ("mdformat formatting failed: mdformat exited with code -2. Check "
                       ++ quoted "Output > mdformat" ++ " for details.")].
Proof.
  refine (proj2 (start_failure_shows_two_messages startFailureEnv initialState
                   (stateAtSpawn startFailureEnv initialState) "/usr/bin/python3"
                   "spawn /usr/bin/python3 ENOENT" (Some (-2)%Z) _ _)).
  - vm_compute. reflexivity.
  - discriminate.
Defined.

(** ** The shape of the result *)

Lemma settle_wholeOrNothing orig inv p :
  wholeOrNothing orig (promise inv) ->
  wholeOrNothing orig p ->
  wholeOrNothing orig (promise (settle inv p)).
Proof. unfold settle. intros Hi Hp. destruct (promise inv) eqn:E; simpl; rewrite ?E; auto. Qed.

Lemma handle_wholeOrNothing py orig ev inv st :
  wholeOrNothing orig (promise inv) ->
  wholeOrNothing orig (promise (fst (handle py orig ev inv st))).
Proof.
  intros H. destruct ev as [data|data|message|code signal cancelRequested]; cbn [handle].
  - exact H.
  - exact H.
  - rewrite onError_fst. apply settle_wholeOrNothing; [exact H | exact I].
  - rewrite onClose_fst. apply settle_wholeOrNothing; [exact H|].
    destruct cancelRequested; [exact I|].
    destruct (truthy_opt signal); [exact I|].
    destruct code as [[|n|n]|]; try exact I.
    destruct (0 <? String.length (stdout inv))%nat eqn:L; cbn [andb]; [|now left].
    destruct (String.eqb (stdout inv) orig) eqn:E; cbn [negb]; [now left|].
    right. exists (stdout inv). split; [reflexivity|].
    split; [now apply length_pos_iff | now apply String.eqb_neq].
Qed.

Lemma deliver_wholeOrNothing py orig evs inv st :
  wholeOrNothing orig (promise inv) ->
  wholeOrNothing orig (promise (fst (deliver py orig evs inv st))).
Proof.
  revert inv st. induction evs as [|ev rest IH]; intros inv st H; [exact H|].
  rewrite deliver_cons. apply IH, handle_wholeOrNothing, H.
Qed.

(** X19: whatever the environment and the events of the process, a
    resolved request carries no edit, or exactly one edit that spans the
    whole document and whose text is neither empty nor the document. *)
Theorem edits_whole_or_nothing (env : Env) (st : State) :
  match fst (provideDocumentFormattingEdits env st) with
  | Resolved edits =>
      edits = []
      \/ exists out,
           edits = [{| rangeStart := 0;
                       rangeEnd := String.length (documentText env);
                       newText := out |}]
           /\ out <> EmptyString
           /\ out <> documentText env
  | _ => True
  end.
Proof.
  change (wholeOrNothing (documentText env) (fst (provideDocumentFormattingEdits env st))).
  destruct (formattingRun env st) as [[[cur st2] evs]|] eqn:R.
  - destruct (formattingRun_provide _ _ _ _ _ R) as (U & _).
    destruct (invoke_handlers env cur st2) as (st0 & _ & _ & _ & Hinv).
    rewrite U, Hinv. cbn [fst]. apply deliver_wholeOrNothing. exact Logic.I.
  - destruct (formattingRun_None env st R) as [H|(cur & G & Hne)].
    + rewrite (proj1 (provide_no_interpreter env st H)). now left.
    + rewrite (proj1 (provide_unavailable env st cur G Hne R)). now left.
Qed.

(** X20: while the process only writes and neither closes nor fails, the
    promise stays pending: no timeout settles it; nothing is shown and the
    cache stays at "found" for the interpreter. *)
Theorem hung_process_stays_pending (env : Env) (st st2 : State) (cur : string)
    (evs : list ProcEvent) :
  formattingRun env st = Some (cur, st2, evs) ->
  forallb isData evs = true ->
  fst (provideDocumentFormattingEdits env st) = Pending
  /\ notificationsOf (log (snd (provideDocumentFormattingEdits env st)))
     = notificationsOf (log st)
  /\ cacheOf (snd (provideDocumentFormattingEdits env st)) = (Some true, Some cur).
Proof.
  intros R D. rewrite <- (app_nil_r evs) in R.
  destruct (provide_handlers env st cur st2 evs [] R D) as (st0 & C & N & _ & U).
  rewrite U. cbn [fst snd deliver ret promise]. auto.
Qed.

Lemma hung_process_stays_pending_witness :
  fst (provideDocumentFormattingEdits hungEnv initialState) = Pending.
Proof.
  refine (proj1 (hung_process_stays_pending hungEnv initialState
                   (stateAtSpawn hungEnv initialState) "/usr/bin/python3"
                   [StdoutData "# H"] _ _)).
  - vm_compute. reflexivity.
  - reflexivity.
Defined.

(** X21: a request that finds an interpreter always ends with that
    interpreter as the last-checked one and with a definite verdict, never
    [undefined], whatever the cache held before and however the process
    behaves. *)
Theorem request_records_interpreter (env : Env) (st : State) (cur : string) :
  fst (getPythonInterpreter env st) = Some cur ->
  cur <> EmptyString ->
  exists verdict,
    cacheOf (snd (provideDocumentFormattingEdits env st)) = (Some verdict, Some cur).
Proof.
  intros G Hne.
  destruct (formattingRun env st) as [[[cur' st2] evs]|] eqn:R.
  - destruct (formattingRun_interpreter _ _ _ _ _ R) as (G' & _ & _).
    assert (cur' = cur) by congruence. subst cur'.
    rewrite (provide_cache _ _ _ _ _ R).
    destruct (existsb isProcError evs); eauto.
  - exists false. apply (provide_unavailable env st cur G Hne R).
Qed.

Lemma request_records_interpreter_witness :
  exists verdict,
    cacheOf (snd (provideDocumentFormattingEdits unavailableEnv venvCheckedState))
    = (Some verdict, Some "/usr/bin/python3").
Proof.
  refine (request_records_interpreter unavailableEnv venvCheckedState
            "/usr/bin/python3" _ _).
  - reflexivity.
  - discriminate.
Defined.
